(** * CSVision: the data layer [src/csv_data_manager.py]

    A shallow embedding of the class [CSVDataManager] and of the Python and
    pandas operations it calls, followed by the properties of the
    specification that concern it.

    - Python exceptions are values of [result]; a method that can raise
      returns [result A].
    - Python [float] is IEEE binary64, here Rocq's primitive [float]; Python
      [int] is [Z]; [str] is [string] (a byte string).
    - A pandas [DataFrame] is the ordered list of its labelled columns, each
      column carrying its dtype. *)

From Stdlib Require Import ZArith List String Ascii Bool Lia DecimalString Sorted.
From Stdlib Require Import Floats.
From Stdlib Require HexadecimalString.
From stdpp Require Import base option list strings gmap.
Import ListNotations.

Set Warnings "-inexact-float".
Open Scope string_scope.
Open Scope Z_scope.

(** ** Exceptions *)

(** The exception classes that occur in the module, with Python's hierarchy.
    [EmptyDataError] and [ParserError] are pandas' ([pandas.errors]); both
    derive from [ValueError]. *)
Inductive exn_class : Type :=
  | Exception | ArithmeticError | OverflowError
  | LookupError | IndexError | KeyError
  | OSError | FileNotFoundError | PermissionError
  | TypeError
  | ValueError | UnicodeError | UnicodeDecodeError
  | EmptyDataError | ParserError.

Definition exn_class_eqb (a b : exn_class) : bool :=
  match a, b with
  | Exception, Exception | ArithmeticError, ArithmeticError
  | OverflowError, OverflowError | LookupError, LookupError
  | IndexError, IndexError | KeyError, KeyError | OSError, OSError
  | FileNotFoundError, FileNotFoundError | PermissionError, PermissionError
  | TypeError, TypeError | ValueError, ValueError
  | UnicodeError, UnicodeError | UnicodeDecodeError, UnicodeDecodeError
  | EmptyDataError, EmptyDataError | ParserError, ParserError => true
  | _, _ => false
  end.

(** The proper base classes of a class, nearest first. *)
Definition bases (c : exn_class) : list exn_class :=
  match c with
  | Exception => []
  | ArithmeticError | LookupError | OSError | TypeError | ValueError => [Exception]
  | OverflowError => [ArithmeticError; Exception]
  | IndexError | KeyError => [LookupError; Exception]
  | FileNotFoundError | PermissionError => [OSError; Exception]
  | UnicodeError | EmptyDataError | ParserError => [ValueError; Exception]
  | UnicodeDecodeError => [UnicodeError; ValueError; Exception]
  end.

(** [issubclass c d]: what an [except d] clause tests on an exception of
    class [c]. *)
Definition issubclass (c d : exn_class) : bool :=
  existsb (exn_class_eqb d) (c :: bases c).

(** An exception object: its class and [str(exc)]. *)
Record exn : Type := Exn { exn_cls : exn_class; exn_msg : string }.

Inductive result (A : Type) : Type :=
  | Ok (a : A)
  | Raise (e : exn).
Arguments Ok {A} a.
Arguments Raise {A} e.

#[global] Instance result_ret : MRet result := fun _ a => Ok a.
#[global] Instance result_bind : MBind result := fun _ _ f m =>
  match m with
  | Ok a => f a
  | Raise e => Raise e
  end.

Definition raise {A} (c : exn_class) (msg : string) : result A :=
  Raise (Exn c msg).

(** [for x in l: body x], for a body that only raises or passes. *)
Fixpoint mapM {A B} (f : A -> result B) (l : list A) : result (list B) :=
  match l with
  | [] => Ok []
  | x :: l' => y ← f x; ys ← mapM f l'; Ok (y :: ys)
  end.

(** ** Python values that reach the selector and path arguments *)

Inductive pyval : Type :=
  | PNone
  | PInt (z : Z)
  | PStr (s : string).

(** [f"{type(v)}"] *)
Definition type_repr (v : pyval) : string :=
  match v with
  | PNone => "<class 'NoneType'>"
  | PInt _ => "<class 'int'>"
  | PStr _ => "<class 'str'>"
  end.

(** ** Strings *)

Module Str.

(** ASCII characters for which [str.isspace] holds: tab to carriage
    return, the four separators 28 to 31, and the space. *)
Definition is_space (c : ascii) : bool :=
  let n := nat_of_ascii c in
  ((9 <=? n)%nat && (n <=? 13)%nat) || ((28 <=? n)%nat && (n <=? 32)%nat).

(** The double quote, as a string. *)
Definition dquote : string := String (ascii_of_nat 34) EmptyString.

Definition is_digit (c : ascii) : bool :=
  let n := nat_of_ascii c in (48 <=? n)%nat && (n <=? 57)%nat.

Definition digit_val (c : ascii) : Z := Z.of_nat (nat_of_ascii c) - 48.

Fixpoint drop (n : nat) (s : string) : string :=
  match n, s with
  | O, _ => s
  | S n', String _ s' => drop n' s'
  | S _, EmptyString => EmptyString
  end.

Fixpoint rev_onto (s acc : string) : string :=
  match s with
  | EmptyString => acc
  | String c s' => rev_onto s' (String c acc)
  end.

Definition rev (s : string) : string := rev_onto s EmptyString.

(** [cut sep s]: the text before and after the first occurrence of [sep]
    in [s], as [s.partition(sep)] finds it. *)
Fixpoint cut (sep s : string) : option (string * string) :=
  if String.prefix sep s then Some (EmptyString, drop (String.length sep) s)
  else match s with
       | EmptyString => None
       | String c s' =>
           match cut sep s' with
           | Some (a, b) => Some (String c a, b)
           | None => None
           end
       end.

(** [sub in s] *)
Definition contains (sub s : string) : bool :=
  match cut sub s with Some _ => true | None => false end.

(** [s.split(sep)] for a non-empty [sep]: every occurrence splits, from
    the left. The fuel bounds the number of cuts; [split] gives enough. *)
Fixpoint split_fuel (fuel : nat) (sep s : string) : list string :=
  match fuel with
  | O => [s]
  | S fuel' =>
      match cut sep s with
      | None => [s]
      | Some (a, b) => a :: split_fuel fuel' sep b
      end
  end.

Definition split (sep s : string) : list string :=
  split_fuel (String.length s) sep s.

(** [s.replace(old, new)] for a non-empty [old]. *)
Fixpoint replace_fuel (fuel : nat) (old new s : string) : string :=
  match fuel with
  | O => s
  | S fuel' =>
      match cut old s with
      | None => s
      | Some (a, b) => a +:+ new +:+ replace_fuel fuel' old new b
      end
  end.

(** [s.replace(old, new)] for the empty [old]: [new] before every
    character and at the end. *)
Fixpoint intersperse (new s : string) : string :=
  match s with
  | EmptyString => new
  | String c s' => new +:+ String c (intersperse new s')
  end.

Definition replace (old new s : string) : string :=
  match old with
  | EmptyString => intersperse new s
  | _ => replace_fuel (String.length s) old new s
  end.

(** [s.split()]: the maximal runs of non-whitespace characters. [cur] is
    the run being read, reversed. *)
Fixpoint split_ws_go (cur : string) (s : string) : list string :=
  match s with
  | EmptyString =>
      match cur with EmptyString => [] | _ => [rev cur] end
  | String c s' =>
      if is_space c then
        match cur with
        | EmptyString => split_ws_go EmptyString s'
        | _ => rev cur :: split_ws_go EmptyString s'
        end
      else split_ws_go (String c cur) s'
  end.

Definition split_ws (s : string) : list string := split_ws_go EmptyString s.

Fixpoint lstrip (s : string) : string :=
  match s with
  | String c s' => if is_space c then lstrip s' else s
  | EmptyString => EmptyString
  end.

(** [s.strip()] *)
Definition strip (s : string) : string := rev (lstrip (rev (lstrip s))).

Definition lower_char (c : ascii) : ascii :=
  let n := nat_of_ascii c in
  if (65 <=? n)%nat && (n <=? 90)%nat then ascii_of_nat (n + 32) else c.

Fixpoint lower (s : string) : string :=
  match s with
  | EmptyString => EmptyString
  | String c s' => String (lower_char c) (lower s')
  end.

(** [str(n)] for an integer. *)
Definition of_Z (z : Z) : string :=
  match z with
  | Z0 => "0"
  | Zpos p => NilEmpty.string_of_uint (Pos.to_uint p)
  | Zneg p => String "-" (NilEmpty.string_of_uint (Pos.to_uint p))
  end.

(** [s.rjust(width, "0")] *)
Fixpoint zeros (n : nat) : string :=
  match n with O => EmptyString | S n' => String "0" (zeros n') end.

Definition zfill (width : nat) (s : string) : string :=
  zeros (width - String.length s) +:+ s.

(** [x in l] for a list of strings. *)
Definition mem (x : string) (l : list string) : bool :=
  existsb (String.eqb x) l.

(** [format(z, "02x")]: lower-case hexadecimal digits, filled with zeros to
    two characters, the sign included. *)
Definition hex02 (z : Z) : string :=
  match z with
  | Z0 => "00"
  | Zpos p => zfill 2 (HexadecimalString.NilEmpty.string_of_uint (Pos.to_hex_uint p))
  | Zneg p =>
      String "-" (zfill 1 (HexadecimalString.NilEmpty.string_of_uint (Pos.to_hex_uint p)))
  end.

End Str.

(** ** Floats *)

Module Float.

(** The nearest integer to [p / q] for [0 < q], ties to the even one. *)
Definition round_half_even (p q : Z) : Z :=
  let d := p / q in
  match 2 * (p mod q) ?= q with
  | Lt => d
  | Gt => d + 1
  | Eq => if Z.even d then d else d + 1
  end.

(** The nearest integer to [m * 2^e * k], ties to even. *)
Definition scaled (m : positive) (e k : Z) : Z :=
  if 0 <=? e then Z.pos m * 2 ^ e * k
  else round_half_even (Z.pos m * k) (2 ^ (- e)).

Definition of_int (z : Z) : spec_float :=
  match z with
  | Z0 => S754_zero false
  | Zpos p => S754_finite false p 0
  | Zneg p => S754_finite true p 0
  end.

(** The binary64 nearest to the rational [n / d] ([0 < d]), ties to even:
    [n / d] on Python integers, and the value of a decimal literal. *)
Definition of_ratio (n d : Z) : float :=
  SF2Prim (SFdiv prec emax (of_int n) (of_int d)).

(** [float(z)] for a Python integer. *)
Definition of_Z (z : Z) : result float :=
  let f := SF2Prim (binary_normalize prec emax z 0 false) in
  if is_infinity f then raise OverflowError "int too large to convert to float"
  else Ok f.

(** The exact order of a float and an integer; [None] for a NaN. *)
Definition compare_Z (f : float) (z : Z) : option comparison :=
  match Prim2SF f with
  | S754_nan => None
  | S754_zero _ => Some (0 ?= z)
  | S754_infinity s => Some (if s then Lt else Gt)
  | S754_finite s m e =>
      let v := if s then Z.neg m else Z.pos m in
      Some (if 0 <=? e then v * 2 ^ e ?= z else v ?= z * 2 ^ (- e))
  end.

(** [round(x, 3)]: the decimal with three places nearest to the exact
    value of [x], then the float nearest to that decimal. NaN, the
    infinities and the zeros round to themselves. *)
Definition round3 (x : float) : float :=
  match Prim2SF x with
  | S754_finite s m e =>
      let n := scaled m e 1000 in
      if n =? 0 then (if s then neg_zero else zero)
      else of_ratio (if s then - n else n) 1000
  | _ => x
  end.

(** [format(x, ".3f")] *)
Definition format3f (x : float) : string :=
  match Prim2SF x with
  | S754_nan => "nan"
  | S754_infinity s => if s then "-inf" else "inf"
  | S754_zero s => if s then "-0.000" else "0.000"
  | S754_finite s m e =>
      let n := scaled m e 1000 in
      (if s then "-" else EmptyString)
        +:+ Str.of_Z (n / 1000) +:+ "." +:+ Str.zfill 3 (Str.of_Z (n mod 1000))
  end.

(** C's [fmod(x, y)]: the exact remainder of [x / y], with the sign of
    [x]. *)
Definition fmod (x y : float) : float :=
  match Prim2SF x, Prim2SF y with
  | S754_finite sx mx ex, S754_finite _ my ey =>
      let e := Z.min ex ey in
      let r := (Z.pos mx * 2 ^ (ex - e)) mod (Z.pos my * 2 ^ (ey - e)) in
      SF2Prim (binary_normalize prec emax (if sx then - r else r) e sx)
  | S754_zero _, S754_finite _ _ _ => x
  | (S754_zero _ | S754_finite _ _ _), S754_infinity _ => x
  | _, _ => nan
  end.

(** [x % y] on floats, for a divisor that is not zero: the remainder takes
    the sign of the divisor. *)
Definition rem (x y : float) : float :=
  let m := fmod x y in
  if (m =? 0)%float then (if (y <? 0)%float then neg_zero else zero)
  else if xorb (y <? 0)%float (m <? 0)%float then (m + y)%float
  else m.

(** [int(x)]: the integer part of a float. *)
Definition to_int (x : float) : result Z :=
  match Prim2SF x with
  | S754_nan => raise ValueError "cannot convert float NaN to integer"
  | S754_infinity _ => raise OverflowError "cannot convert float infinity to integer"
  | S754_zero _ => Ok 0
  | S754_finite s m e =>
      let a := if 0 <=? e then Z.pos m * 2 ^ e else Z.pos m / 2 ^ (- e) in
      Ok (if s then - a else a)
  end.

End Float.

(** ** [int(s)] and [float(s)] *)

Module Parse.

(** A digit part: digits, single underscores allowed between two digits.
    Returns the value read after [acc], the number of digits read after
    [n] and the text left. *)
Fixpoint digitpart (acc : Z) (n : nat) (s : string) : Z * nat * string :=
  match s with
  | String c s' =>
      if Str.is_digit c then
        match s' with
        | String "_" (String d _ as s'') =>
            if Str.is_digit d then digitpart (10 * acc + Str.digit_val c) (S n) s''
            else (10 * acc + Str.digit_val c, S n, s')
        | _ => digitpart (10 * acc + Str.digit_val c) (S n) s'
        end
      else (acc, n, s)
  | EmptyString => (acc, n, s)
  end.

Definition sign (s : string) : bool * string :=
  match s with
  | String "-" s' => (true, s')
  | String "+" s' => (false, s')
  | _ => (false, s)
  end.

(** [int(s)], base 10. *)
Definition int (s : string) : result Z :=
  let '(neg, body) := sign (Str.strip s) in
  match digitpart 0 0 body with
  | (v, S _, EmptyString) => Ok (if neg then - v else v)
  | _ => raise ValueError ("invalid literal for int() with base 10: '" +:+ s +:+ "'")
  end.

(** The exponent of a float literal: [e], an optional sign, a digit part.
    [None] when [s] starts with [e] but no exponent follows. *)
Definition exponent (s : string) : option (Z * string) :=
  match s with
  | String c s' =>
      if (Ascii.eqb c "e" || Ascii.eqb c "E")%bool then
        let '(neg, body) := sign s' in
        match digitpart 0 0 body with
        | (v, S _, rest) => Some (if neg then - v else v, rest)
        | _ => None
        end
      else Some (0, s)
  | EmptyString => Some (0, s)
  end.

(** The value [m * 10^k] as a float. *)
Definition decimal (m k : Z) : float :=
  if 0 <=? k then Float.of_ratio (m * 10 ^ k) 1 else Float.of_ratio m (10 ^ (- k)).

Definition number (s : string) : option float :=
  let '(ip, ni, r1) := digitpart 0 0 s in
  let '(fp, nf, r2) :=
    match r1 with
    | String "." r => digitpart ip 0 r
    | _ => (ip, O, r1)
    end in
  match (ni + nf)%nat with
  | O => None
  | S _ =>
      match exponent r2 with
      | Some (ex, EmptyString) => Some (decimal fp (ex - Z.of_nat nf))
      | _ => None
      end
  end.

(** [float(s)] for a string. *)
Definition float (s : string) : result float :=
  let '(neg, body) := sign (Str.strip s) in
  let low := Str.lower body in
  let magnitude :=
    if (String.eqb low "inf" || String.eqb low "infinity")%bool then Some infinity
    else if String.eqb low "nan" then Some nan
    else number body in
  match magnitude with
  | Some f => Ok (if neg then (- f)%float else f)
  | None => raise ValueError ("could not convert string to float: '" +:+ s +:+ "'")
  end.

End Parse.

(** ** [datetime.datetime] *)

Module Datetime.

Record datetime : Type := Make {
  year : Z; month : Z; day : Z;
  hour : Z; minute : Z; second : Z; microsecond : Z
}.

(** The proleptic Gregorian date of a day number counted from 1970-01-01. *)
Definition civil_from_days (days : Z) : Z * Z * Z :=
  let z := days + 719468 in
  let era := z / 146097 in
  let doe := z - era * 146097 in
  let yoe := (doe - doe / 1460 + doe / 36524 - doe / 146096) / 365 in
  let doy := doe - (365 * yoe + yoe / 4 - yoe / 100) in
  let mp := (5 * doy + 2) / 153 in
  let d := doy - (153 * mp + 2) / 5 + 1 in
  let m := if mp <? 10 then mp + 3 else mp - 9 in
  let y := yoe + era * 400 in
  (if m <=? 2 then y + 1 else y, m, d).

(** The whole seconds and the microseconds of a timestamp, as CPython
    splits it: the fraction is multiplied by [1e6] in floating point and
    rounded to the nearest integer, ties to even. *)
Definition to_timeval (t : float) : result (Z * Z) :=
  match Prim2SF t with
  | S754_nan => raise ValueError "Invalid value NaN (not a number)"
  | S754_infinity _ => raise OverflowError "timestamp out of range for platform time_t"
  | S754_zero _ => Ok (0, 0)
  | S754_finite s m e =>
      let ip := (if 0 <=? e then Z.pos m * 2 ^ e else Z.pos m / 2 ^ (- e)) in
      let ip := if s then - ip else ip in
      let frac := (t - SF2Prim (binary_normalize prec emax ip 0 false))%float in
      let us :=
        match Prim2SF (frac * 1000000)%float with
        | S754_finite s' m' e' =>
            let n := Float.scaled m' e' 1 in if s' then - n else n
        | _ => 0
        end in
      let '(ip, us) :=
        if 1000000 <=? us then (ip + 1, us - 1000000)
        else if us <? 0 then (ip - 1, us + 1000000)
        else (ip, us) in
      if (- 2 ^ 63 <=? ip) && (ip <? 2 ^ 63) then Ok (ip, us)
      else raise OverflowError "timestamp out of range for platform time_t"
  end.

(** [datetime.datetime.utcfromtimestamp(t)] (CPython on Linux): the C
    library fails when the year counted from 1900 leaves the range of
    [int]; the year itself is a C [int] and wraps; the constructor fails
    when it leaves [1, 9999]. *)
Definition utcfromtimestamp (t : float) : result datetime :=
  '(secs, us) ← to_timeval t;
  let '(y, m, d) := civil_from_days (secs / 86400) in
  let sod := secs mod 86400 in
  if negb ((- 2 ^ 31 <=? y - 1900) && (y - 1900 <? 2 ^ 31)) then
    raise OSError "[Errno 75] Value too large for defined data type"
  else
    let y := (y + 2 ^ 31) mod 2 ^ 32 - 2 ^ 31 in
    if (y <? 1) || (9999 <? y) then
      raise ValueError ("year " +:+ Str.of_Z y +:+ " is out of range")
    else
      Ok (Make y m d (sod / 3600) (sod mod 3600 / 60) (sod mod 60) us).

(** [str(dt)]: the ISO format with a space between date and time; the
    microseconds appear when they are not zero. *)
Definition to_string (dt : datetime) : string :=
  Str.zfill 4 (Str.of_Z (year dt)) +:+ "-" +:+ Str.zfill 2 (Str.of_Z (month dt))
    +:+ "-" +:+ Str.zfill 2 (Str.of_Z (day dt)) +:+ " "
    +:+ Str.zfill 2 (Str.of_Z (hour dt)) +:+ ":" +:+ Str.zfill 2 (Str.of_Z (minute dt))
    +:+ ":" +:+ Str.zfill 2 (Str.of_Z (second dt))
    +:+ (if microsecond dt =? 0 then EmptyString
         else "." +:+ Str.zfill 6 (Str.of_Z (microsecond dt))).

End Datetime.

(** ** Python scalars: the values a pandas column yields when iterated *)

Inductive scalar : Type :=
  | SInt (z : Z)
  | SFloat (f : float)
  | SBool (b : bool)
  | SStr (s : string).

Module Py.

Definition type_name (v : scalar) : string :=
  match v with
  | SInt _ => "int" | SFloat _ => "float" | SBool _ => "bool" | SStr _ => "str"
  end.

(** [bool] is a subclass of [int]. *)
Definition as_int (v : scalar) : option Z :=
  match v with
  | SInt z => Some z
  | SBool b => Some (if b then 1 else 0)
  | _ => None
  end.

(** [float(v)] *)
Definition float (v : scalar) : result float :=
  match v with
  | SFloat f => Ok f
  | SStr s => Parse.float s
  | SInt z => Float.of_Z z
  | SBool b => Ok (if b then 1 else 0)%float
  end.

Definition unsupported {A} (op : string) (a b : scalar) : result A :=
  raise TypeError ("unsupported operand type(s) for " +:+ op +:+ ": '"
                   +:+ type_name a +:+ "' and '" +:+ type_name b +:+ "'").

(** An arithmetic operator on two numbers: integers stay integers, a float
    operand makes the other one a float. *)
Definition arith (fz : Z -> Z -> Z) (ff : PrimFloat.float -> PrimFloat.float -> PrimFloat.float)
    (a b : scalar) : result scalar :=
  match as_int a, as_int b with
  | Some x, Some y => Ok (SInt (fz x y))
  | _, _ => x ← float a; y ← float b; Ok (SFloat (ff x y))
  end.

(** [a - b] *)
Definition sub (a b : scalar) : result scalar :=
  match a, b with
  | SStr _, _ | _, SStr _ => unsupported "-" a b
  | _, _ => arith Z.sub PrimFloat.sub a b
  end.

(** [a + b] *)
Definition add (a b : scalar) : result scalar :=
  match a, b with
  | SStr x, SStr y => Ok (SStr (x +:+ y))
  | SStr _, _ =>
      raise TypeError ("can only concatenate str (not " +:+ Str.dquote +:+ type_name b
                       +:+ Str.dquote +:+ ") to str")
  | _, SStr _ => unsupported "+" a b
  | _, _ => arith Z.add PrimFloat.add a b
  end.

(** [k * v] for a float [k] *)
Definition float_mul (k : PrimFloat.float) (v : scalar) : result scalar :=
  match v with
  | SStr _ => raise TypeError "can't multiply sequence by non-int of type 'float'"
  | _ => x ← float v; Ok (SFloat (k * x))
  end.

(** [abs(v)] *)
Definition abs (v : scalar) : result scalar :=
  match v with
  | SFloat f => Ok (SFloat (PrimFloat.abs f))
  | SStr _ => raise TypeError "bad operand type for abs(): 'str'"
  | SInt z => Ok (SInt (Z.abs z))
  | SBool b => Ok (SInt (if b then 1 else 0))
  end.

(** [round(v, 3)] *)
Definition round3 (v : scalar) : result scalar :=
  match v with
  | SFloat f => Ok (SFloat (Float.round3 f))
  | SStr _ => raise TypeError "type str doesn't define __round__ method"
  | SInt z => Ok (SInt z)
  | SBool b => Ok (SInt (if b then 1 else 0))
  end.

(** [a == b]; it never raises. Numbers compare by value, whatever their
    types; a string equals only the same string. *)
Definition eq (a b : scalar) : bool :=
  match a, b with
  | SStr x, SStr y => String.eqb x y
  | SStr _, _ | _, SStr _ => false
  | SFloat x, SFloat y => (x =? y)%float
  | SFloat x, _ =>
      match as_int b with
      | Some z => match Float.compare_Z x z with Some Eq => true | _ => false end
      | None => false
      end
  | _, SFloat y =>
      match as_int a with
      | Some z => match Float.compare_Z y z with Some Eq => true | _ => false end
      | None => false
      end
  | _, _ =>
      match as_int a, as_int b with
      | Some x, Some y => x =? y
      | _, _ => false
      end
  end.

(** [a < b] *)
Definition lt (a b : scalar) : result bool :=
  match a, b with
  | SStr x, SStr y => Ok (String.ltb x y)
  | SStr _, _ | _, SStr _ =>
      raise TypeError ("'<' not supported between instances of '"
                       +:+ type_name a +:+ "' and '" +:+ type_name b +:+ "'")
  | SFloat x, SFloat y => Ok (x <? y)%float
  | SFloat x, _ =>
      match as_int b with
      | Some z => Ok (match Float.compare_Z x z with Some Lt => true | _ => false end)
      | None => Ok false
      end
  | _, SFloat y =>
      match as_int a with
      | Some z => Ok (match Float.compare_Z y z with Some Gt => true | _ => false end)
      | None => Ok false
      end
  | _, _ =>
      match as_int a, as_int b with
      | Some x, Some y => Ok (x <? y)
      | _, _ => Ok false
      end
  end.

(** [a > b] *)
Definition gt (a b : scalar) : result bool :=
  match a, b with
  | SStr x, SStr y => Ok (String.ltb y x)
  | SStr _, _ | _, SStr _ =>
      raise TypeError ("'>' not supported between instances of '"
                       +:+ type_name a +:+ "' and '" +:+ type_name b +:+ "'")
  | _, _ => lt b a
  end.

(** The loop of [min] and [max]: the running extremum [cur] is replaced
    by an item that compares strictly before it. *)
Fixpoint extremum (before : scalar -> scalar -> result bool)
    (cur : scalar) (l : list scalar) : result scalar :=
  match l with
  | [] => Ok cur
  | x :: l' => b ← before x cur; extremum before (if b : bool then x else cur) l'
  end.

(** [min(l)] *)
Definition min (l : list scalar) : result scalar :=
  match l with
  | [] => raise ValueError "min() arg is an empty sequence"
  | x :: l' => extremum lt x l'
  end.

(** [max(l)] *)
Definition max (l : list scalar) : result scalar :=
  match l with
  | [] => raise ValueError "max() arg is an empty sequence"
  | x :: l' => extremum gt x l'
  end.

(** [l[i]] on a list or tuple, for [0 <= i]. *)
Definition index {A} (what : string) (l : list A) (i : nat) : result A :=
  match nth_error l i with
  | Some x => Ok x
  | None => raise IndexError (what +:+ " index out of range")
  end.

(** [pathlib.Path(p).suffix] on a POSIX path: the last dot of the final
    component and what follows, unless that dot starts or ends the
    component. *)
Definition path_name (p : string) : string :=
  List.last (List.filter (fun c => negb (String.eqb c EmptyString || String.eqb c "."))
                         (Str.split "/" p)) EmptyString.

Definition suffix (p : string) : string :=
  match Str.cut "." (Str.rev (path_name p)) with
  | Some (String c ext, String _ _) => String "." (Str.rev (String c ext))
  | _ => EmptyString
  end.

End Py.

(** ** [colorsys] *)

Module Colorsys.

Definition ONE_THIRD : float := (1 / 3)%float.
Definition ONE_SIXTH : float := (1 / 6)%float.
Definition TWO_THIRD : float := (2 / 3)%float.

Definition _v (m1 m2 hue : float) : float :=
  let hue := Float.rem hue 1 in
  if (hue <? ONE_SIXTH)%float then (m1 + (m2 - m1) * hue * 6)%float
  else if (hue <? 0.5)%float then m2
  else if (hue <? TWO_THIRD)%float then (m1 + (m2 - m1) * (TWO_THIRD - hue) * 6)%float
  else m1.

(** [colorsys.hls_to_rgb(h, l, s)] *)
Definition hls_to_rgb (h l s : float) : float * float * float :=
  if (s =? 0)%float then (l, l, l)
  else
    let m2 := if (l <=? 0.5)%float then (l * (1 + s))%float else (l + s - l * s)%float in
    let m1 := (2 * l - m2)%float in
    (_v m1 m2 (h + ONE_THIRD)%float, _v m1 m2 h, _v m1 m2 (h - ONE_THIRD)%float).

End Colorsys.

(** ** pandas: columns and frames *)

(** A column of a frame read by [pandas.read_csv], by dtype: [int64],
    [float64], [bool], or [object], whose cells are strings or missing
    ([None], the float NaN). *)
Inductive column : Type :=
  | IntCol (l : list Z)
  | FloatCol (l : list float)
  | BoolCol (l : list bool)
  | ObjCol (l : list (option string)).

(** The frame: its columns in file order, each with its label. [read_csv]
    makes the labels unique (a repeated header [x] is renamed [x.1], ...);
    the lookups by label below are those of a frame with unique labels. *)
Definition DataFrame : Type := list (string * column).

Module Pandas.

(** The Python values of a column, in row order: what iterating the
    [Series] yields. *)
Definition values (c : column) : list scalar :=
  match c with
  | IntCol l => map SInt l
  | FloatCol l => map SFloat l
  | BoolCol l => map SBool l
  | ObjCol l => map (fun o => match o with Some s => SStr s | None => SFloat nan end) l
  end.

(** [len(series)] *)
Definition len (c : column) : nat := length (values c).

(** [series.iloc[0]] *)
Definition iloc0 (c : column) : result scalar :=
  match values c with
  | x :: _ => Ok x
  | [] => raise IndexError "single positional indexer is out-of-bounds"
  end.

(** [series == v], element by element. *)
Definition eq (c : column) (v : scalar) : list bool :=
  map (fun x => Py.eq x v) (values c).

(** [mask.all()] *)
Definition all (mask : list bool) : bool := forallb id mask.

(** [df.columns.tolist()] *)
Definition columns (df : DataFrame) : list string := map fst df.

(** [df.get(label)] *)
Fixpoint get (df : DataFrame) (label : string) : option column :=
  match df with
  | [] => None
  | (h, c) :: df' => if String.eqb h label then Some c else get df' label
  end.

(** [df[label]] *)
Definition getitem (df : DataFrame) (label : string) : result column :=
  match get df label with
  | Some c => Ok c
  | None => raise KeyError ("'" +:+ label +:+ "'")
  end.

(** [df.iloc[:, i]] for an integer [i]; a negative [i] counts from the
    end. *)
Definition iloc (df : DataFrame) (i : Z) : result column :=
  let n := Z.of_nat (length df) in
  let j := if i <? 0 then i + n else i in
  match (if (0 <=? j) && (j <? n) then nth_error df (Z.to_nat j) else None) with
  | Some (_, c) => Ok c
  | None => raise IndexError "single positional indexer is out-of-bounds"
  end.

(** The position of the first label equal to [label], counted from [i]. *)
Fixpoint position (labels : list string) (label : string) (i : nat) : option nat :=
  match labels with
  | [] => None
  | h :: labels' => if String.eqb h label then Some i else position labels' label (S i)
  end.

(** [int(df.columns.get_loc(label))]: the position of a label that occurs
    once; for a repeated label [get_loc] returns a slice or a mask, which
    [int] rejects. *)
Definition get_loc (labels : list string) (label : string) : result Z :=
  match List.filter (String.eqb label) labels with
  | [] => raise KeyError ("'" +:+ label +:+ "'")
  | [_] =>
      match position labels label 0 with
      | Some i => Ok (Z.of_nat i)
      | None => raise KeyError ("'" +:+ label +:+ "'")
      end
  | _ => raise TypeError "int() argument must be a string, a bytes-like object or a real number, not 'slice'"
  end.

End Pandas.

(** ** The class [CSVDataManager] *)

Module CSVDataManager.

(** The attributes set by [__init__]. [_prefix] is [None] for Python's
    [None]. *)
Record t : Type := Make {
  _filepath : pyval;
  _prefix : option string;
  _dataframe : DataFrame;
  _nr_of_data : Z;
  loaded : bool
}.

Definition default_prefix : string := "Truma_n_".

(** [str(v)], as an f-string interpolates it. *)
Definition str (v : pyval) : string :=
  match v with
  | PNone => "None"
  | PInt z => Str.of_Z z
  | PStr s => s
  end.

(** [pathlib.Path(v).suffix] *)
Definition path_suffix (v : pyval) : result string :=
  match v with
  | PStr s => Ok (Py.suffix s)
  | PInt _ => raise TypeError "expected str, bytes or os.PathLike object, not int"
  | PNone => raise TypeError "expected str, bytes or os.PathLike object, not NoneType"
  end.

(** [_load_data]. [read_csv] stands for
    [pd.read_csv(_, delimiter=';', quotechar='|')] on the file system of
    the call: it returns the frame or raises. The [except] clauses are
    tried in order, each matching the exception's class or a subclass. *)
Definition _load_data (filepath : pyval) (read_csv : pyval -> result DataFrame)
    : result DataFrame :=
  match read_csv filepath with
  | Ok df => Ok df
  | Raise exc =>
      let c := exn_cls exc in
      if issubclass c FileNotFoundError then
        raise FileNotFoundError ("The file " +:+ str filepath +:+ " was not found.")
      else if issubclass c EmptyDataError then
        raise EmptyDataError ("No columns to parse from file: " +:+ str filepath)
      else if issubclass c UnicodeDecodeError then
        sfx ← path_suffix filepath;
        raise ValueError ("Invalid file type: " +:+ sfx)
      else if issubclass c ValueError then
        raise ValueError ("Invalid file path or buffer object type: " +:+ type_repr filepath)
      else if issubclass c TypeError then
        raise TypeError "Missing 1 required positional argument: 'filepath"
      else
        raise Exception ("An unexpected error occurred: " +:+ exn_msg exc)
  end.

(** [CSVDataManager(filepath, prefix)]; [filepath] is [None] when the
    caller passes no argument, which Python itself rejects. *)
Definition __init__ (filepath : option pyval) (prefix : option string)
    (read_csv : pyval -> result DataFrame) : result t :=
  match filepath with
  | None =>
      raise TypeError "CSVDataManager.__init__() missing 1 required positional argument: 'filepath'"
  | Some fp =>
      df ← _load_data fp read_csv;
      Ok (Make fp prefix df (Z.of_nat (length (Pandas.columns df))) true)
  end.

Section Methods.

Variable self : t.

(** [header_list] *)
Definition header_list : list string := Pandas.columns (_dataframe self).

(** [index_list] *)
Definition index_list : list nat := seq 0 (length header_list).

Definition _validate_index (idx : pyval) : result unit :=
  match idx with
  | PInt i =>
      if (i <? 0) || (_nr_of_data self <=? i) then
        raise IndexError ("Index '" +:+ Str.of_Z i +:+ "' out of range.")
      else Ok tt
  | _ => Ok tt
  end.

Definition _validate_header (hdr : pyval) : result unit :=
  match hdr with
  | PStr h =>
      if negb (Str.mem h header_list) then
        raise ValueError ("Header '" +:+ h +:+ "' not found")
      else Ok tt
  | _ => Ok tt
  end.

Definition is_none (v : pyval) : bool :=
  match v with PNone => true | _ => false end.

Definition is_int (v : pyval) : bool :=
  match v with PInt _ => true | _ => false end.

Definition is_str (v : pyval) : bool :=
  match v with PStr _ => true | _ => false end.

Definition _validate_input (idx hdr : pyval) : result unit :=
  _ ← _validate_index idx;
  _ ← _validate_header hdr;
  if is_none idx && is_none hdr then
    raise ValueError "An index or header name must be provided."
  else if negb (is_none idx) && negb (is_none hdr) then
    raise ValueError "Only one of index or header name should be provided."
  else if is_none hdr && negb (is_int idx) then
    raise ValueError "Did you mean to provide the hdr? (hdr= )"
  else if is_none idx && negb (is_str hdr) then
    raise ValueError "Did you mean to provide the idx? (idx= )"
  else Ok tt.

(** [_get_data_by_header]: [DataFrame.get] returns [None] for a label
    that is not a column. *)
Definition _get_data_by_header (header : pyval) : result (option column) :=
  _ ← _validate_header header;
  Ok (match header with
      | PStr h => Pandas.get (_dataframe self) h
      | _ => None
      end).

Definition _get_data_by_index (index : pyval) : result column :=
  _ ← _validate_index index;
  match index with
  | PInt i => Pandas.iloc (_dataframe self) i
  | _ => raise ValueError "Location based indexing can only have [integer, integer slice (START point is INCLUDED, END point is EXCLUDED), listlike of integers, boolean array] types"
  end.

Definition _get_raw_data (idx hdr : pyval) : result (option column) :=
  _ ← _validate_input idx hdr;
  if negb (is_none idx) then c ← _get_data_by_index idx; Ok (Some c)
  else _get_data_by_header hdr.

(** [for value in data]: the values of a series; [None] is not
    iterable. *)
Definition iterate (data : option column) : result (list scalar) :=
  match data with
  | Some c => Ok (Pandas.values c)
  | None => raise TypeError "'NoneType' object is not iterable"
  end.

Definition get_data (idx hdr : pyval) : result (list float) :=
  data ← _get_raw_data idx hdr;
  vs ← iterate data;
  mapM Py.float vs.

Definition get_data_extrema (idx hdr : pyval) : result (scalar * scalar) :=
  data ← _get_raw_data idx hdr;
  vs ← iterate data;
  min_val ← Py.min vs;
  max_val ← Py.max vs;
  if Py.eq min_val max_val then
    lo ← Py.sub min_val (SFloat 1);
    hi ← Py.add max_val (SFloat 1);
    Ok (lo, hi)
  else
    range ← Py.sub max_val min_val;
    scaled ← Py.float_mul 0.05 range;
    buffer ← Py.abs scaled;
    lo ← Py.sub min_val buffer;
    lo ← Py.round3 lo;
    hi ← Py.add max_val buffer;
    hi ← Py.round3 hi;
    Ok (lo, hi).

Definition get_header (index : Z) : result string :=
  _ ← _validate_index (PInt index);
  Py.index "list" header_list (Z.to_nat index).

Definition get_index (header : string) : result Z :=
  _ ← _validate_header (PStr header);
  Pandas.get_loc header_list header.

(** [_parse_time]. The [try] body: the formatted value without its
    point, read as an integer of milliseconds, as a UTC date and time;
    of its text the second word, split at the colons. *)
Definition epoch_tokens (formatted : string) : result (list string) :=
  millis ← Parse.int (Str.replace "." EmptyString formatted);
  f ← Float.of_Z millis;
  dt ← Datetime.utcfromtimestamp (f / 1000)%float;
  clock ← Py.index "list" (Str.split_ws (Datetime.to_string dt)) 1;
  Ok (Str.split ":" clock).

(** The [except ValueError] handler. *)
Definition fallback_tokens (formatted : string) : result (list string) :=
  clock ← Py.index "list" (Str.split_ws formatted) 1;
  Ok (Str.split ":" clock).

Definition _parse_time (raw_time : float) : result (list float) :=
  let raw_time := Float.format3f raw_time in
  parsed_time ←
    match epoch_tokens raw_time with
    | Ok toks => Ok toks
    | Raise exc =>
        if issubclass (exn_cls exc) ValueError then fallback_tokens raw_time
        else Raise exc
    end;
  mapM Parse.float parsed_time.

(** [hr, _min, sec = ...]: unpacking into three names. *)
Definition unpack3 {A} (l : list A) : result (A * A * A) :=
  match l with
  | [a; b; c] => Ok (a, b, c)
  | _ :: _ :: _ :: _ => raise ValueError "too many values to unpack (expected 3)"
  | _ =>
      raise ValueError ("not enough values to unpack (expected 3, got "
                        +:+ Str.of_Z (Z.of_nat (length l)) +:+ ")")
  end.

Definition _calculate_time_in_seconds (raw_time : float) (time_offset : list float)
    : result float :=
  '(hr, _min, sec) ← (t ← _parse_time raw_time; unpack3 t);
  o0 ← Py.index "tuple" time_offset 0;
  o1 ← Py.index "tuple" time_offset 1;
  o2 ← Py.index "tuple" time_offset 2;
  Ok (Float.round3 ((hr - o0) * 3600 + (_min - o1) * 60 + sec - o2)%float).

(** [headers_mapping]. The header without the prefix: every occurrence
    of the prefix is replaced by the empty string. *)
Definition stripped_header (header : string) : result string :=
  match _prefix self with
  | None => raise TypeError "'in <string>' requires string as left operand, not NoneType"
  | Some prefix =>
      Ok (if Str.contains prefix header then Str.replace prefix EmptyString header
          else header)
  end.

(** [group_header, header_key = s.split('::') if '::' in s else (None, s)] *)
Definition group_and_key (s : string) : result (option string * string) :=
  if Str.contains "::" s then
    match Str.split "::" s with
    | [g; k] => Ok (Some g, k)
    | _ :: _ :: _ :: _ => raise ValueError "too many values to unpack (expected 2)"
    | l =>
        raise ValueError ("not enough values to unpack (expected 2, got "
                          +:+ Str.of_Z (Z.of_nat (length l)) +:+ ")")
    end
  else Ok (None, s).

(** [d.setdefault(k, []).append(v)] on a dictionary kept in insertion
    order. *)
Fixpoint setdefault_append {K V} (eqb : K -> K -> bool) (d : list (K * list V))
    (k : K) (v : V) : list (K * list V) :=
  match d with
  | [] => [(k, [v])]
  | (k', vs) :: d' =>
      if eqb k' k then (k', (vs ++ [v])%list) :: d'
      else (k', vs) :: setdefault_append eqb d' k v
  end.

Definition key_eqb (a b : option string) : bool :=
  match a, b with
  | None, None => true
  | Some x, Some y => String.eqb x y
  | _, _ => false
  end.

(** The body of the loop over [enumerate(self.header_list)], started at
    index [idx] with the dictionary [hdr_mapping]. *)
Fixpoint headers_mapping_from (idx : nat) (headers : list string)
    (hdr_mapping : list (option string * list (string * nat)))
    : result (list (option string * list (string * nat))) :=
  match headers with
  | [] => Ok hdr_mapping
  | header :: headers' =>
      strpped_header ← stripped_header header;
      '(group_header, header_key) ← group_and_key strpped_header;
      headers_mapping_from (S idx) headers'
        (setdefault_append key_eqb hdr_mapping group_header (header_key, idx))
  end.

Definition headers_mapping : result (list (option string * list (string * nat))) :=
  headers_mapping_from 0 header_list [].

(** [const_data_index_list]: the loop over
    [enumerate(self._dataframe.columns)] from index [idx]; the result
    lists the indices in the order they were appended. *)
Fixpoint const_data_from (idx : nat) (labels : list string) : result (list nat) :=
  match labels with
  | [] => Ok []
  | column :: labels' =>
      datafram_col ← Pandas.getitem (_dataframe self) column;
      first ← Pandas.iloc0 datafram_col;
      rest ← const_data_from (S idx) labels';
      Ok (if Pandas.all (Pandas.eq datafram_col first) then idx :: rest else rest)
  end.

Definition const_data_index_list : result (list nat) :=
  const_data_from 0 (Pandas.columns (_dataframe self)).

Fixpoint const_zero_data_from (idx : nat) (labels : list string) : result (list nat) :=
  match labels with
  | [] => Ok []
  | column :: labels' =>
      datafram_col ← Pandas.getitem (_dataframe self) column;
      rest ← const_zero_data_from (S idx) labels';
      Ok (if Pandas.all (Pandas.eq datafram_col (SInt 0)) then idx :: rest else rest)
  end.

Definition const_zero_data_index_list : result (list nat) :=
  const_zero_data_from 0 (Pandas.columns (_dataframe self)).

(** [varying_data_index_list]: a list display around the symmetric
    difference of the two sets. *)
Definition varying_data_index_list : result (list (gset nat)) :=
  const ← const_data_index_list;
  let a : gset nat := list_to_set const in
  let b : gset nat := list_to_set index_list in
  Ok [(a ∖ b) ∪ (b ∖ a)].

Definition time_data_list : result (list float) :=
  data ← get_data PNone (PStr "time index");
  first ← Py.index "list" data 0;
  time_offset ← _parse_time first;
  rest ← mapM (fun row => _calculate_time_in_seconds row time_offset) (tail data);
  Ok (0%float :: rest).

(** [get_unique_color_code]. The three divisions by [_nr_of_data] are
    reached only when [_validate_index] has passed for the integer index,
    that is with [0 < _nr_of_data]: none of them divides by zero. *)
Definition get_unique_color_code (index : Z) : result string :=
  _ ← _validate_index (PInt index);
  let color_factor := Float.of_ratio 16777215 (_nr_of_data self) in
  i ← Float.of_Z index;
  n ← Float.of_Z (_nr_of_data self);
  let hue := (Float.rem (i * color_factor) n / n)%float in
  let '(saturation, lightness) := (0.9, 0.6)%float in
  let '(r, g, b) := Colorsys.hls_to_rgb hue lightness saturation in
  r ← Float.to_int (r * 255)%float;
  g ← Float.to_int (g * 255)%float;
  b ← Float.to_int (b * 255)%float;
  Ok ("#" +:+ Str.hex02 r +:+ Str.hex02 g +:+ Str.hex02 b).

End Methods.

End CSVDataManager.

(** ** The vocabulary of the specification *)

Module Spec.

Import CSVDataManager.

(** A loaded table: an object that [__init__] returned. *)
Definition constructed (self : t) : Prop :=
  exists filepath prefix read_csv, __init__ filepath prefix read_csv = Ok self.

(** The frame has [n] rows: every column has [n] cells. *)
Definition rows (df : DataFrame) (n : nat) : Prop :=
  Forall (fun hc => Pandas.len (snd hc) = n) df.

(** The query-time failure kinds. *)
Inductive selector_failure : Type :=
  | IndexOutOfRange | HeaderNotFound
  | AmbiguousSelector | MissingSelector | TypeMismatch.

(** The kind of an exception of the validation methods, read off the
    class and the text of their [raise] statements. *)
Definition selector_kind (e : exn) : option selector_failure :=
  let msg := exn_msg e in
  match exn_cls e with
  | IndexError =>
      if String.prefix "Index '" msg then Some IndexOutOfRange else None
  | ValueError =>
      if String.eqb msg "An index or header name must be provided." then
        Some MissingSelector
      else if String.eqb msg "Only one of index or header name should be provided." then
        Some AmbiguousSelector
      else if (String.eqb msg "Did you mean to provide the hdr? (hdr= )"
               || String.eqb msg "Did you mean to provide the idx? (idx= )")%bool then
        Some TypeMismatch
      else if String.prefix "Header '" msg then Some HeaderNotFound
      else None
  | _ => None
  end.

(** [r] is a failure of kind [k]. *)
Definition fails_with {A} (r : result A) (k : selector_failure) : Prop :=
  exists e, r = Raise e /\ selector_kind e = Some k.

(** The load-time failure kinds. *)
Inductive load_failure : Type :=
  | NotFound | EmptyData | InvalidEncoding
  | InvalidPathType | MissingArgument | Unexpected.

(** The kind of a load-time failure: the first [except] clause of
    [_load_data] that matches the class of the exception [read_csv]
    raised. *)
Definition load_failure_of (c : exn_class) : load_failure :=
  if issubclass c FileNotFoundError then NotFound
  else if issubclass c EmptyDataError then EmptyData
  else if issubclass c UnicodeDecodeError then InvalidEncoding
  else if issubclass c ValueError then InvalidPathType
  else if issubclass c TypeError then MissingArgument
  else Unexpected.

(** No character of [s] is whitespace. *)
Fixpoint no_space (s : string) : bool :=
  match s with
  | EmptyString => true
  | String c s' => negb (Str.is_space c) && no_space s'
  end.

(** The elapsed seconds of a parsed time [(h, m, s)] after the offset
    [(h0, m0, s0)], in the floating-point operations of
    [_calculate_time_in_seconds]. *)
Definition elapsed (h m s h0 m0 s0 : float) : float :=
  Float.round3 ((h - h0) * 3600 + (m - m0) * 60 + s - s0)%float.

(** A header name split once at the separator: the group and the leaf;
    no group when there is no separator. *)
Definition split_once (s : string) : option string * string :=
  match Str.cut "::" s with
  | Some (g, k) => (Some g, k)
  | None => (None, s)
  end.

(** The name holds the separator at most once. *)
Definition single_separator (s : string) : Prop :=
  forall g k, Str.cut "::" s = Some (g, k) -> Str.contains "::" k = false.

(** The group, leaf and index of every header, in column order from index
    [idx]; the prefix is removed wherever it occurs. *)
Fixpoint entries_from (prefix : string) (idx : nat) (headers : list string)
    : list (option string * (string * nat)) :=
  match headers with
  | [] => []
  | h :: headers' =>
      let '(g, k) := split_once (Str.replace prefix EmptyString h) in
      (g, (k, idx)) :: entries_from prefix (S idx) headers'
  end.

Definition key_mem (k : option string) (l : list (option string)) : bool :=
  existsb (key_eqb k) l.

(** The keys in the order of their first occurrence, those of [seen] left
    out. *)
Fixpoint first_occurrences (seen keys : list (option string)) : list (option string) :=
  match keys with
  | [] => []
  | k :: keys' =>
      if key_mem k seen then first_occurrences seen keys'
      else k :: first_occurrences (k :: seen) keys'
  end.

(** The entries of group [k], in the order of the list. *)
Definition members {V} (k : option string) (entries : list (option string * V)) : list V :=
  map snd (List.filter (fun e => key_eqb (fst e) k) entries).

(** The mapping from each group to its members: groups by first
    occurrence, members in list order. *)
Definition grouped {V} (entries : list (option string * V))
    : list (option string * list V) :=
  map (fun k => (k, members k entries)) (first_occurrences [] (map fst entries)).

(** Every cell of the column equals its first cell; a column without cells
    has no first cell. *)
Definition all_equal_first (c : column) : bool :=
  match Pandas.values c with
  | first :: _ => Pandas.all (Pandas.eq c first)
  | [] => false
  end.

(** Every cell of the column equals [0]. *)
Definition all_zero (c : column) : bool := Pandas.all (Pandas.eq c (SInt 0)).

(** The positions, counted from [idx], of the columns that satisfy [p]. *)
Fixpoint positions_from (p : column -> bool) (idx : nat) (df : DataFrame) : list nat :=
  match df with
  | [] => []
  | (_, c) :: df' =>
      if p c then idx :: positions_from p (S idx) df'
      else positions_from p (S idx) df'
  end.

(** The exception classes that [_load_data] raises. *)
Definition load_classes : list exn_class :=
  [FileNotFoundError; EmptyDataError; ValueError; TypeError; Exception].

(** A colour code: [#] and six lower-case hexadecimal digits. *)
Definition is_hex_digit (c : ascii) : bool :=
  let n := nat_of_ascii c in
  (((48 <=? n) && (n <=? 57)) || ((97 <=? n) && (n <=? 102)))%nat%bool.

Fixpoint all_hex_digits (s : string) : bool :=
  match s with
  | EmptyString => true
  | String c s' => is_hex_digit c && all_hex_digits s'
  end.

Definition is_color_code (s : string) : bool :=
  match s with
  | String "#" digits => (String.length digits =? 6)%nat && all_hex_digits digits
  | _ => false
  end.

(** The colour of index [i] among [n] columns is a colour code. *)
Definition color_code_ok (n i : nat) : bool :=
  match get_unique_color_code (Make PNone None [] (Z.of_nat n) true) (Z.of_nat i) with
  | Ok s => is_color_code s
  | Raise _ => false
  end.

(** No character of [s] is a colon. *)
Fixpoint no_colon (s : string) : bool :=
  match s with
  | EmptyString => true
  | String c s' => negb (Ascii.eqb c ":") && no_colon s'
  end.

End Spec.

(** * Properties *)

Import CSVDataManager.

(** ** Basic facts *)

(** Case analysis on the tests of a chain of [if]s. *)
Ltac case_clauses :=
  repeat match goal with
         | |- context [if ?b then _ else _] => destruct b
         | H : context [if ?b then _ else _] |- _ => destruct b
         end.

Lemma bind_Ok {A B} (m : result A) (f : A -> result B) (b : B) :
  m ≫= f = Ok b -> exists a, m = Ok a /\ f a = Ok b.
Proof. destruct m as [a|e]; simpl; [eauto | discriminate]. Qed.

Lemma constructed_nr_of_data (self : t) :
  Spec.constructed self ->
  _nr_of_data self = Z.of_nat (length (header_list self)).
Proof.
  intros (fp & pre & rd & H). unfold __init__ in H.
  destruct fp as [fp|]; [|discriminate].
  apply bind_Ok in H as (df & _ & H). injection H as <-. reflexivity.
Qed.

Lemma constructed_read (fp : pyval) (pre : option string) (df : DataFrame) :
  Spec.constructed (Make fp pre df (Z.of_nat (length df)) true).
Proof.
  exists (Some fp), pre, (fun _ => Ok df). cbn.
  unfold Pandas.columns. now rewrite length_map.
Qed.

Lemma mem_In (x : string) (l : list string) : Str.mem x l = true <-> In x l.
Proof.
  unfold Str.mem. rewrite existsb_exists. split.
  - intros (y & Hy & E). apply String.eqb_eq in E. now subst.
  - intros H. exists x. split; [assumption | apply String.eqb_refl].
Qed.

(** ** Header and index lookups *)

Lemma position_nth (l : list string) (h : string) (i k : nat) :
  NoDup l -> nth_error l i = Some h -> Pandas.position l h k = Some (k + i)%nat.
Proof.
  intros Hnd. revert i k. induction Hnd as [|x l Hx Hnd IH]; intros i k Hi.
  - destruct i; discriminate.
  - destruct i as [|i]; simpl in *.
    + injection Hi as ->. rewrite String.eqb_refl. f_equal. lia.
    + destruct (String.eqb x h) eqn:E.
      * apply String.eqb_eq in E. subst x. exfalso. apply Hx.
        apply list_elem_of_In. eapply nth_error_In; eauto.
      * rewrite (IH i (S k) Hi). f_equal. lia.
Qed.

Lemma filter_eqb_absent (l : list string) (h : string) :
  ~ In h l -> List.filter (String.eqb h) l = [].
Proof.
  induction l as [|x l IH]; simpl; intros H; [reflexivity|].
  destruct (String.eqb h x) eqn:E.
  - apply String.eqb_eq in E. subst. exfalso. apply H. now left.
  - apply IH. intros ?. apply H. now right.
Qed.

Lemma filter_eqb_once (l : list string) (h : string) :
  NoDup l -> In h l -> List.filter (String.eqb h) l = [h].
Proof.
  intros Hnd. induction Hnd as [|x l Hx Hnd IH]; simpl; intros Hin; [contradiction|].
  destruct (String.eqb h x) eqn:E.
  - apply String.eqb_eq in E. subst x. f_equal. apply filter_eqb_absent.
    intros ?. apply Hx. now apply list_elem_of_In.
  - destruct Hin as [->|Hin]; [now rewrite String.eqb_refl in E | now apply IH].
Qed.

(** C9. For every valid index [i] of a loaded table with unique header
    names, [get_index(get_header(i))] returns [i]. *)
Theorem get_index_get_header (self : t) (i : Z) :
  Spec.constructed self ->
  NoDup (header_list self) ->
  0 <= i < _nr_of_data self ->
  (h ← get_header self i; get_index self h) = Ok i.
Proof.
  intros Hc Hnd Hi. pose proof (constructed_nr_of_data self Hc) as Hn.
  unfold get_header, _validate_index.
  replace ((i <? 0) || (_nr_of_data self <=? i))%bool with false
    by (symmetry; apply orb_false_intro; [apply Z.ltb_ge | apply Z.leb_gt]; lia).
  cbn [mbind result_bind]. unfold Py.index.
  destruct (nth_error (header_list self) (Z.to_nat i)) as [h|] eqn:Hh.
  2:{ apply nth_error_None in Hh. lia. }
  cbn [mbind result_bind]. unfold get_index, _validate_header.
  assert (Hin : In h (header_list self)) by (eapply nth_error_In; eauto).
  rewrite (proj2 (mem_In _ _) Hin). cbn [negb mbind result_bind].
  unfold Pandas.get_loc. rewrite (filter_eqb_once _ _ Hnd Hin).
  rewrite (position_nth _ _ _ 0%nat Hnd Hh). f_equal. simpl. lia.
Qed.

Lemma get_index_get_header_witness :
  let self := Make (PStr "log.csv") (Some default_prefix)
                [("time index", IntCol [1; 2]); ("speed", IntCol [3; 4])] 2 true in
  (h ← get_header self 1; get_index self h) = Ok 1.
Proof.
  intros self. apply get_index_get_header.
  - apply (constructed_read (PStr "log.csv") (Some default_prefix)
             [("time index", IntCol [1; 2]); ("speed", IntCol [3; 4])]).
  - repeat constructor; intros H; repeat (apply elem_of_cons in H as [H|H];
      [discriminate|]); now apply elem_of_nil in H.
  - simpl. lia.
Defined.

(** ** Selector validation *)

(** C2, as stated, fails: with both selectors given and the index out of
    range, the index check raises first and the failure is
    [IndexOutOfRange], not [AmbiguousSelector]. *)
Lemma validate_input_both_index_out_of_range :
  let self := Make (PStr "log.csv") (Some default_prefix)
                [("time index", IntCol [1; 2]); ("speed", IntCol [3; 4])] 2 true in
  _validate_input self (PInt 7) (PStr "speed")
    = Raise (Exn IndexError "Index '7' out of range.")
  /\ Spec.fails_with (_validate_input self (PInt 7) (PStr "speed")) Spec.IndexOutOfRange
  /\ ~ Spec.fails_with (_validate_input self (PInt 7) (PStr "speed")) Spec.AmbiguousSelector.
Proof.
  intros self. split; [reflexivity|]. split.
  - eexists. split; reflexivity.
  - intros (e & He & Hk). injection He as <-. discriminate.
Qed.

(** C2, amended. Once the index check and the header check have passed (an
    integer index is in range, a string header is a header of the table),
    [_validate_input] fails with [AmbiguousSelector] when both selectors are
    given; it fails with [MissingSelector] when neither is given, and with
    [TypeMismatch] when only the index is given and is a string, or only the
    header is given and is an integer. *)
Theorem validate_input_kinds (self : t) :
  (forall idx hdr,
      idx <> PNone -> hdr <> PNone ->
      _validate_index self idx = Ok tt ->
      _validate_header self hdr = Ok tt ->
      Spec.fails_with (_validate_input self idx hdr) Spec.AmbiguousSelector)
  /\ Spec.fails_with (_validate_input self PNone PNone) Spec.MissingSelector
  /\ (forall s, Spec.fails_with (_validate_input self (PStr s) PNone) Spec.TypeMismatch)
  /\ (forall z, Spec.fails_with (_validate_input self PNone (PInt z)) Spec.TypeMismatch).
Proof.
  repeat split.
  - intros idx hdr Hi Hh Vi Vh. unfold _validate_input. rewrite Vi, Vh.
    cbn [mbind result_bind].
    destruct idx; [contradiction| |]; (destruct hdr; [contradiction| |]);
      (eexists; split; reflexivity).
  - eexists. split; reflexivity.
  - intros s. eexists. split; reflexivity.
  - intros z. eexists. split; reflexivity.
Qed.

Lemma validate_input_kinds_witness :
  let self := Make (PStr "log.csv") (Some default_prefix)
                [("time index", IntCol [1; 2]); ("speed", IntCol [3; 4])] 2 true in
  Spec.fails_with (_validate_input self (PInt 1) (PStr "speed")) Spec.AmbiguousSelector.
Proof.
  intros self.
  apply (proj1 (validate_input_kinds self) (PInt 1) (PStr "speed"));
    [discriminate | discriminate | reflexivity | reflexivity].
Defined.

(** ** Floats: the two facts about [==] that the classification needs *)

Lemma compare_Z_zero (f : float) :
  Float.compare_Z f 0 = Some Eq -> exists s, Prim2SF f = S754_zero s.
Proof.
  unfold Float.compare_Z. destruct (Prim2SF f) as [s|s| |s m e]; intros H.
  - now exists s.
  - destruct s; discriminate.
  - discriminate.
  - exfalso. injection H as H. destruct (0 <=? e) eqn:He.
    + apply Z.leb_le in He. apply Z.compare_eq in H.
      apply Z.mul_eq_0 in H as [H|H]; [destruct s; discriminate|].
      revert H. apply Z.pow_nonzero; lia.
    + destruct s; discriminate.
Qed.

Lemma float_eqb_zeros (f g : float) (s s' : bool) :
  Prim2SF f = S754_zero s -> Prim2SF g = S754_zero s' -> (f =? g)%float = true.
Proof. intros Hf Hg. rewrite FloatAxioms.eqb_spec, Hf, Hg. reflexivity. Qed.

Lemma SFeqb_irrefl_nan (x : spec_float) : SFeqb x x = false -> x = S754_nan.
Proof.
  unfold SFeqb. destruct x as [s|s| |s m e]; simpl; try (destruct s; discriminate).
  - reflexivity.
  - rewrite Z.compare_refl.
    destruct s; rewrite Pos.compare_cont_refl; discriminate.
Qed.

Lemma float_eqb_irrefl_nan (f : float) : (f =? f)%float = false -> f = nan.
Proof.
  intros H. rewrite FloatAxioms.eqb_spec in H. apply SFeqb_irrefl_nan in H.
  rewrite <- (SF2Prim_Prim2SF f), H. reflexivity.
Qed.

(** A value equal to [0] equals every other value equal to [0]. *)
Lemma eq_zero_eq (x y : scalar) :
  Py.eq x (SInt 0) = true -> Py.eq y (SInt 0) = true -> Py.eq x y = true.
Proof.
  destruct x as [a|f|b|s], y as [a'|f'|b'|s']; cbn; intros Hx Hy;
    try discriminate;
    repeat match goal with
    | H : (?a =? 0) = true |- _ => apply Z.eqb_eq in H; subst a
    | H : match Float.compare_Z ?f 0 with _ => _ end = true |- _ =>
        let E := fresh "E" in
        destruct (Float.compare_Z f 0) as [[]|] eqn:E; try discriminate; clear H
    | b : bool |- _ => destruct b; try discriminate
    end;
    try reflexivity;
    try (match goal with E : Float.compare_Z _ 0 = Some Eq |- _ => now rewrite E end).
  apply compare_Z_zero in E as [s Hs]. apply compare_Z_zero in E0 as [s' Hs'].
  eapply float_eqb_zeros; eauto.
Qed.

(** ** Constant, constant-zero and varying columns *)

Lemma get_own_label (df : DataFrame) (label : string) :
  In label (Pandas.columns df) ->
  exists col, Pandas.get df label = Some col /\ In col (map snd df).
Proof.
  induction df as [|[h c] df IH]; simpl; intros H; [contradiction|].
  destruct (String.eqb h label) eqn:E.
  - exists c. split; [reflexivity | now left].
  - destruct H as [H|H]; [subst; now rewrite String.eqb_refl in E|].
    destruct (IH H) as (col & Hg & Hin). exists col. split; [assumption | now right].
Qed.

Lemma all_zero_all_first (c : column) (first : scalar) :
  Pandas.iloc0 c = Ok first ->
  Pandas.all (Pandas.eq c (SInt 0)) = true ->
  Pandas.all (Pandas.eq c first) = true.
Proof.
  unfold Pandas.iloc0, Pandas.all, Pandas.eq.
  destruct (Pandas.values c) as [|x vs] eqn:Hv; [discriminate|].
  intros H. injection H as ->. rewrite !forallb_forall. intros Hz b Hb.
  apply in_map_iff in Hb as (y & <- & Hy). unfold id.
  apply eq_zero_eq.
  - apply (Hz (Py.eq y (SInt 0))). apply in_map_iff. eauto.
  - apply (Hz (Py.eq first (SInt 0))). apply in_map_iff. exists first. split; [reflexivity | now left].
Qed.

(** The two loops on a table whose columns all have at least one row. *)
Lemma const_loops (self : t) (n : nat) (labels : list string) (idx : nat) :
  Spec.rows (_dataframe self) n -> n <> 0%nat ->
  (forall l, In l labels -> In l (Pandas.columns (_dataframe self))) ->
  exists zeros consts,
    const_zero_data_from self idx labels = Ok zeros
    /\ const_data_from self idx labels = Ok consts
    /\ (forall i, In i zeros -> In i consts)
    /\ (forall i, In i consts -> (idx <= i < idx + length labels)%nat).
Proof.
  intros Hrows Hn. revert idx.
  induction labels as [|label labels IH]; intros idx Hl.
  - exists [], []. simpl. repeat split; try contradiction.
  - destruct (get_own_label _ label (Hl label (or_introl eq_refl))) as (col & Hg & Hin).
    destruct (IH (S idx) (fun l H => Hl l (or_intror H))) as (zs & cs & Hz & Hc & Hsub & Hrng).
    assert (Hfirst : exists first, Pandas.iloc0 col = Ok first).
    { apply in_map_iff in Hin as ([h c] & <- & Hin). simpl.
      unfold Spec.rows in Hrows. rewrite Forall_forall in Hrows.
      apply list_elem_of_In, Hrows in Hin. simpl in Hin.
      unfold Pandas.iloc0, Pandas.len in *.
      destruct (Pandas.values c); [simpl in Hin; congruence | eauto]. }
    destruct Hfirst as (first & Hfirst).
    simpl. unfold Pandas.getitem. rewrite Hg. cbn [mbind result_bind].
    rewrite Hz, Hc, Hfirst. cbn [mbind result_bind].
    eexists _, _. split; [reflexivity|]. split; [reflexivity|].
    destruct (Pandas.all (Pandas.eq col (SInt 0))) eqn:Ez.
    + rewrite (all_zero_all_first _ _ Hfirst Ez). split.
      * intros i [->|Hi]; [now left | right; auto].
      * intros i [<-|Hi]; [simpl; lia | apply Hrng in Hi; simpl; lia].
    + split.
      * intros i Hi. destruct (Pandas.all (Pandas.eq col first)); [right|]; auto.
      * intros i Hi. destruct (Pandas.all (Pandas.eq col first)).
        -- destruct Hi as [<-|Hi]; [simpl; lia | apply Hrng in Hi; simpl; lia].
        -- apply Hrng in Hi. simpl. lia.
Qed.

(** C10, as stated, fails on a table without rows (a file that holds only
    its header line): every column is constant-zero, vacuously, while
    [const_data_index_list] raises on [iloc[0]]. *)
Lemma const_zero_not_in_const_without_rows :
  let self := Make (PStr "log.csv") (Some default_prefix) [("speed", ObjCol [])] 1 true in
  Spec.constructed self
  /\ const_zero_data_index_list self = Ok [0%nat]
  /\ const_data_index_list self
       = Raise (Exn IndexError "single positional indexer is out-of-bounds").
Proof.
  intros self. split; [|split; reflexivity].
  apply (constructed_read (PStr "log.csv") (Some default_prefix) [("speed", ObjCol [])]).
Qed.

(** C10, amended. For every table with at least one row, both lists are
    returned and every index of [const_zero_data_index_list] is an index of
    [const_data_index_list]. *)
Theorem const_zero_subset_const (self : t) (n : nat) :
  Spec.rows (_dataframe self) n -> n <> 0%nat ->
  exists zeros consts,
    const_zero_data_index_list self = Ok zeros
    /\ const_data_index_list self = Ok consts
    /\ forall i, In i zeros -> In i consts.
Proof.
  intros Hrows Hn.
  destruct (const_loops self n (Pandas.columns (_dataframe self)) 0 Hrows Hn)
    as (zs & cs & Hz & Hc & Hsub & _); [auto|].
  exists zs, cs. auto.
Qed.

Lemma const_zero_subset_const_witness :
  let self := Make (PStr "log.csv") (Some default_prefix)
                [("time index", FloatCol [1699972450.123; 1699972451.623]%float);
                 ("state", IntCol [0; 0]);
                 ("mode", IntCol [4; 4])] 3 true in
  exists zeros consts,
    const_zero_data_index_list self = Ok zeros
    /\ const_data_index_list self = Ok consts
    /\ forall i, In i zeros -> In i consts.
Proof.
  intros self. apply (const_zero_subset_const self 2).
  - repeat constructor.
  - discriminate.
Defined.

(** C1: [varying_data_index_list] does not return the complement of the
    constant columns but a list of length one whose only element is that
    complement, a set. On every table with at least one row: the constant
    indices are returned, and the varying result is [[s]] where [s] holds
    exactly the indices below the column count that are not constant. *)
Theorem varying_is_a_list_holding_one_set (self : t) (n : nat) :
  Spec.rows (_dataframe self) n -> n <> 0%nat ->
  exists (consts : list nat) (s : gset nat),
    const_data_index_list self = Ok consts
    /\ varying_data_index_list self = Ok [s]
    /\ forall i, i ∈ s <-> (i < length (header_list self))%nat /\ ~ In i consts.
Proof.
  intros Hrows Hn.
  destruct (const_loops self n (Pandas.columns (_dataframe self)) 0 Hrows Hn)
    as (zs & cs & _ & Hc & _ & Hrng); [auto|].
  exists cs. eexists. split; [exact Hc|].
  unfold varying_data_index_list. fold (const_data_index_list self) in Hc.
  rewrite Hc. cbn [mbind result_bind]. split; [reflexivity|].
  intros i. unfold index_list, header_list.
  rewrite elem_of_union, !elem_of_difference, !elem_of_list_to_set, elem_of_seq.
  rewrite <- !list_elem_of_In. split.
  - intros [[Hi Hni]|[Hi Hni]].
    + exfalso. apply Hni. apply list_elem_of_In, Hrng in Hi. lia.
    + split; [lia | assumption].
  - intros [Hi Hni]. right. split; [lia | assumption].
Qed.

Lemma varying_is_a_list_holding_one_set_witness :
  let self := Make (PStr "log.csv") (Some default_prefix)
                [("time index", FloatCol [1699972450.123; 1699972451.623]%float);
                 ("state", IntCol [0; 0]);
                 ("speed", IntCol [4; 5])] 3 true in
  exists (consts : list nat) (s : gset nat),
    const_data_index_list self = Ok consts
    /\ varying_data_index_list self = Ok [s]
    /\ forall i, i ∈ s <-> (i < length (header_list self))%nat /\ ~ In i consts.
Proof.
  intros self. apply (varying_is_a_list_holding_one_set self 2).
  - repeat constructor.
  - discriminate.
Defined.

(** The same table evaluated: one constant column, and a result of length
    one for two varying columns. *)
Example varying_data_index_list_example :
  let self := Make (PStr "log.csv") (Some default_prefix)
                [("time index", FloatCol [1699972450.123; 1699972451.623]%float);
                 ("state", IntCol [0; 0]);
                 ("speed", IntCol [4; 5])] 3 true in
  const_data_index_list self = Ok [1%nat]
  /\ (l ← varying_data_index_list self; Ok (length l, map size l))
     = Ok (1%nat, [2%nat]).
Proof. split; vm_compute; reflexivity. Qed.

(** ** Extrema *)

Lemma lt_same (v : scalar) : exists b, Py.lt v v = Ok b.
Proof. destruct v; cbn; eauto. Qed.

Lemma gt_same (v : scalar) : exists b, Py.gt v v = Ok b.
Proof. destruct v; cbn; eauto. Qed.

Lemma extremum_constant (before : scalar -> scalar -> result bool) (v : scalar)
    (l : list scalar) :
  (exists b, before v v = Ok b) -> Forall (eq v) l -> Py.extremum before v l = Ok v.
Proof.
  intros [b Hb]. induction 1 as [|x l <- _ IH]; simpl; [reflexivity|].
  rewrite Hb. cbn [mbind result_bind]. now destruct b.
Qed.

Lemma eq_same (v : scalar) : Py.eq v v = true \/ v = SFloat nan.
Proof.
  destruct v as [z|f|b|s]; cbn.
  - left. apply Z.eqb_refl.
  - destruct (f =? f)%float eqn:E; [now left | right].
    now rewrite (float_eqb_irrefl_nan f E).
  - left. apply Z.eqb_refl.
  - left. apply String.eqb_refl.
Qed.

(** C5. For every series whose rows are all the same value [v],
    [get_data_extrema] returns exactly what [(v - 1.0, v + 1.0)] evaluates
    to; for a number [v], whose value as a float is [f], that is the pair
    of floats [(f - 1.0, f + 1.0)]. *)
Theorem extrema_of_constant_series (self : t) (idx hdr : pyval) (col : column)
    (v : scalar) (rest : list scalar) :
  _get_raw_data self idx hdr = Ok (Some col) ->
  Pandas.values col = v :: rest ->
  Forall (eq v) rest ->
  get_data_extrema self idx hdr
  = (lo ← Py.sub v (SFloat 1); hi ← Py.add v (SFloat 1); Ok (lo, hi))
  /\ forall f, (forall s, v <> SStr s) -> Py.float v = Ok f ->
       get_data_extrema self idx hdr = Ok (SFloat (f - 1), SFloat (f + 1)).
Proof.
  intros Hraw Hv Hall.
  assert (H : get_data_extrema self idx hdr
              = (lo ← Py.sub v (SFloat 1); hi ← Py.add v (SFloat 1); Ok (lo, hi))).
  { unfold get_data_extrema.
    rewrite Hraw. cbn [mbind result_bind iterate]. rewrite Hv.
    unfold Py.min, Py.max.
    rewrite (extremum_constant Py.lt v rest (lt_same v) Hall).
    rewrite (extremum_constant Py.gt v rest (gt_same v) Hall).
    cbn [mbind result_bind].
    destruct (eq_same v) as [E| ->]; [now rewrite E | vm_compute; reflexivity]. }
  split; [exact H|].
  intros f Hnum Hf. rewrite H.
  destruct v as [z|g|b|s]; cbn in Hf |- *.
  - now rewrite Hf.
  - now injection Hf as <-.
  - now injection Hf as <-.
  - now destruct (Hnum s).
Qed.

Lemma extrema_of_constant_series_witness :
  let self := Make (PStr "log.csv") (Some default_prefix)
                [("time index", FloatCol [1699972450.123; 1699972451.623]%float);
                 ("mode", IntCol [4; 4])] 2 true in
  get_data_extrema self PNone (PStr "mode") = Ok (SFloat 3, SFloat 5).
Proof.
  intros self.
  assert (Hall : Forall (eq (SInt 4)) [SInt 4]) by (repeat constructor).
  apply (proj2 (extrema_of_constant_series self PNone (PStr "mode") (IntCol [4; 4])
                  (SInt 4) [SInt 4] eq_refl eq_refl Hall) 4%float).
  - discriminate.
  - reflexivity.
Defined.

(** C4: rounding to three decimals undoes the widening of a series with a
    small range. The column [0.0006, 0.0007] gets the window
    [(0.001, 0.001)]: the lower bound is above the raw minimum and the
    window is empty. The column [0.0, 0.001] gets [(-0.0, 0.001)]: neither
    bound is strictly outside the raw range. *)
Theorem extrema_small_range_not_widened :
  let self := Make (PStr "log.csv") (Some default_prefix)
                [("ripple", FloatCol [0.0006; 0.0007]%float);
                 ("drift", FloatCol [0; 0.001]%float)] 2 true in
  Spec.constructed self
  /\ Py.min (Pandas.values (FloatCol [0.0006; 0.0007]%float)) = Ok (SFloat 0.0006)
  /\ get_data_extrema self (PInt 0) PNone = Ok (SFloat 0.001, SFloat 0.001)
  /\ Py.lt (SFloat 0.001) (SFloat 0.0006) = Ok false
  /\ get_data_extrema self PNone (PStr "drift") = Ok (SFloat (-0), SFloat 0.001)
  /\ Py.lt (SFloat (-0)) (SFloat 0) = Ok false
  /\ Py.gt (SFloat 0.001) (SFloat 0.001) = Ok false.
Proof.
  intros self. split.
  - apply (constructed_read (PStr "log.csv") (Some default_prefix)
             [("ripple", FloatCol [0.0006; 0.0007]%float);
              ("drift", FloatCol [0; 0.001]%float)]).
  - repeat split; vm_compute; reflexivity.
Qed.

(** A series with a wide range, for comparison: five percent on each side. *)
Example extrema_widened_example :
  get_data_extrema
    (Make (PStr "log.csv") (Some default_prefix) [("speed", IntCol [10; 30; 20])] 1 true)
    (PInt 0) PNone
  = Ok (SFloat 9, SFloat 31).
Proof. vm_compute. reflexivity. Qed.

(** ** Time parsing *)

Lemma no_space_app (a b : string) :
  Spec.no_space (a +:+ b) = (Spec.no_space a && Spec.no_space b)%bool.
Proof.
  induction a as [|c a IH]; simpl; [reflexivity|].
  now rewrite IH, andb_assoc.
Qed.

Lemma no_space_string_of_uint (u : Decimal.uint) :
  Spec.no_space (NilEmpty.string_of_uint u) = true.
Proof. induction u; simpl; auto. Qed.

Lemma no_space_of_Z (z : Z) : Spec.no_space (Str.of_Z z) = true.
Proof. destruct z; simpl; auto using no_space_string_of_uint. Qed.

Lemma no_space_zfill (n : nat) (s : string) :
  Spec.no_space s = true -> Spec.no_space (Str.zfill n s) = true.
Proof.
  intros H. unfold Str.zfill. rewrite no_space_app, H, andb_true_r.
  induction (n - String.length s)%nat; simpl; auto.
Qed.

(** The text of a formatted number holds no whitespace. *)
Lemma no_space_format3f (x : float) : Spec.no_space (Float.format3f x) = true.
Proof.
  unfold Float.format3f. destruct (Prim2SF x) as [s|s| |s m e].
  - now destruct s.
  - now destruct s.
  - reflexivity.
  - rewrite !no_space_app, no_space_of_Z, no_space_zfill by apply no_space_of_Z.
    now destruct s.
Qed.

Lemma split_ws_go_no_space (cur s : string) :
  Spec.no_space s = true -> (length (Str.split_ws_go cur s) <= 1)%nat.
Proof.
  revert cur. induction s as [|c s IH]; intros cur H; simpl in *.
  - destruct cur; simpl; lia.
  - apply andb_prop in H as [Hc Hs]. apply negb_true_iff in Hc.
    rewrite Hc. now apply IH.
Qed.

(** Without whitespace there is no second word to take. *)
Lemma fallback_tokens_no_space (s : string) :
  Spec.no_space s = true ->
  fallback_tokens s = Raise (Exn IndexError "list index out of range").
Proof.
  intros H. unfold fallback_tokens, Py.index, Str.split_ws.
  pose proof (split_ws_go_no_space EmptyString s H) as Hlen.
  destruct (Str.split_ws_go EmptyString s) as [|a [|b l]]; simpl in *;
    try reflexivity; lia.
Qed.

(** C3: the fallback of [_parse_time] never yields a time. For every float
    whose epoch conversion raises a [ValueError], the handler looks for a
    second whitespace-separated word in the formatted number, finds none,
    and [_parse_time] raises [IndexError]. *)
Theorem parse_time_fallback_raises (raw_time : float) (exc : exn) :
  epoch_tokens (Float.format3f raw_time) = Raise exc ->
  issubclass (exn_cls exc) ValueError = true ->
  _parse_time raw_time = Raise (Exn IndexError "list index out of range").
Proof.
  intros Hexc Hsub. unfold _parse_time. rewrite Hexc, Hsub.
  now rewrite fallback_tokens_no_space by apply no_space_format3f.
Qed.

Lemma parse_time_fallback_raises_witness :
  epoch_tokens (Float.format3f nan)
    = Raise (Exn ValueError "invalid literal for int() with base 10: 'nan'")
  /\ _parse_time nan = Raise (Exn IndexError "list index out of range").
Proof.
  split; [reflexivity|].
  apply (parse_time_fallback_raises nan
           (Exn ValueError "invalid literal for int() with base 10: 'nan'"));
    reflexivity.
Defined.

(** The same for a finite number: a timestamp beyond the year 9999. *)
Example parse_time_year_out_of_range :
  epoch_tokens (Float.format3f 1e15)
    = Raise (Exn ValueError "year 31690708 is out of range")
  /\ _parse_time 1e15 = Raise (Exn IndexError "list index out of range").
Proof. split; vm_compute; reflexivity. Qed.

(** A timestamp of the epoch encoding is parsed. *)
Example parse_time_epoch :
  _parse_time 1699972450.123 = Ok [14; 34; 10.123]%float.
Proof. vm_compute. reflexivity. Qed.

(** ** The elapsed-time series *)

Lemma get_Some_In (df : DataFrame) (label : string) (col : column) :
  Pandas.get df label = Some col ->
  In label (Pandas.columns df) /\ In (label, col) df.
Proof.
  induction df as [|[h c] df IH]; simpl; [discriminate|].
  destruct (String.eqb h label) eqn:E.
  - apply String.eqb_eq in E. subst h. intros H. injection H as ->. auto.
  - intros H. destruct (IH H). auto.
Qed.

Lemma mapM_length {A B} (f : A -> result B) (l : list A) (l' : list B) :
  mapM f l = Ok l' -> length l' = length l.
Proof.
  revert l'. induction l as [|x l IH]; simpl; intros l' H.
  - now injection H as <-.
  - apply bind_Ok in H as (y & _ & H). apply bind_Ok in H as (ys & Hys & H).
    injection H as <-. simpl. f_equal. now apply IH.
Qed.

(** [get_data] by the header of a column of the table. *)
Lemma get_data_by_header (self : t) (label : string) (col : column) :
  Pandas.get (_dataframe self) label = Some col ->
  get_data self PNone (PStr label) = mapM Py.float (Pandas.values col).
Proof.
  intros Hget. destruct (get_Some_In _ _ _ Hget) as [Hin _].
  unfold get_data, _get_raw_data, _validate_input, _get_data_by_header,
    _validate_index, _validate_header.
  fold (header_list self) in Hin. rewrite (proj2 (mem_In _ _) Hin).
  cbn. now rewrite Hget.
Qed.

Lemma calculate_time_parsed (row h m s h0 m0 s0 : float) :
  _parse_time row = Ok [h; m; s] ->
  _calculate_time_in_seconds row [h0; m0; s0] = Ok (Spec.elapsed h m s h0 m0 s0).
Proof. intros Hp. unfold _calculate_time_in_seconds. rewrite Hp. reflexivity. Qed.

Lemma elapsed_rows (off : list float) (h0 m0 s0 : float) (rest : list float) :
  off = [h0; m0; s0] ->
  Forall (fun row => exists h m s, _parse_time row = Ok [h; m; s]) rest ->
  exists out,
    mapM (fun row => _calculate_time_in_seconds row off) rest = Ok out
    /\ Forall2 (fun row r => exists h m s,
                  _parse_time row = Ok [h; m; s]
                  /\ r = Spec.elapsed h m s h0 m0 s0) rest out.
Proof.
  intros ->. induction 1 as [|row rest (h & m & s & Hp) _ (out & Hout & Hall)].
  - exists []. split; [reflexivity | constructor].
  - exists (Spec.elapsed h m s h0 m0 s0 :: out). split.
    + cbn [mapM]. rewrite (calculate_time_parsed row h m s h0 m0 s0 Hp).
      cbn [mbind result_bind]. rewrite Hout. reflexivity.
    + constructor; [|assumption]. exists h, m, s. auto.
Qed.

(** C6, as stated, fails: a table whose [time index] column has an empty
    cell in its second row. The cell is read as NaN, the text [nan] is not
    a timestamp, and [time_data_list] raises instead of returning a series. *)
Lemma time_data_list_raises_on_empty_cell :
  let self := Make (PStr "log.csv") (Some default_prefix)
                [("time index", FloatCol [1699972450.123; nan]%float);
                 ("speed", IntCol [3; 4])] 2 true in
  Spec.constructed self
  /\ Spec.rows (_dataframe self) 2
  /\ time_data_list self = Raise (Exn IndexError "list index out of range")
  /\ ~ exists out, time_data_list self = Ok out.
Proof.
  intros self.
  assert (H : time_data_list self = Raise (Exn IndexError "list index out of range"))
    by (vm_compute; reflexivity).
  split; [|split; [|split]].
  - apply (constructed_read (PStr "log.csv") (Some default_prefix)
             [("time index", FloatCol [1699972450.123; nan]%float);
              ("speed", IntCol [3; 4])]).
  - repeat constructor.
  - exact H.
  - intros [out Hout]. rewrite H in Hout. discriminate.
Qed.

(** C6, amended. For every table of [n] rows with a column headed
    [time index] whose cells are numbers that [_parse_time] parses (into
    [(h0, m0, s0)] for the first row), [time_data_list] returns a sequence
    of length [n] whose first element is [0.0] and whose element for each
    later row, parsed into [(h, m, s)], is
    [(h - h0) * 3600 + (m - m0) * 60 + s - s0] rounded to three decimals. *)
Theorem time_data_list_elapsed (self : t) (n : nat) (col : column)
    (first : float) (rest : list float) (h0 m0 s0 : float) :
  Spec.rows (_dataframe self) n ->
  Pandas.get (_dataframe self) "time index" = Some col ->
  mapM Py.float (Pandas.values col) = Ok (first :: rest) ->
  _parse_time first = Ok [h0; m0; s0] ->
  Forall (fun row => exists h m s, _parse_time row = Ok [h; m; s]) rest ->
  exists out,
    time_data_list self = Ok (0%float :: out)
    /\ length (0%float :: out) = n
    /\ Forall2 (fun row r => exists h m s,
                  _parse_time row = Ok [h; m; s]
                  /\ r = Spec.elapsed h m s h0 m0 s0) rest out.
Proof.
  intros Hrows Hget Hdata Hfirst Hrest.
  destruct (elapsed_rows [h0; m0; s0] h0 m0 s0 rest eq_refl Hrest) as (out & Hout & Hall).
  exists out. split; [|split; [|exact Hall]].
  - unfold time_data_list. rewrite (get_data_by_header self _ col Hget), Hdata.
    cbn. rewrite Hfirst. cbn [mbind result_bind]. rewrite Hout. reflexivity.
  - apply mapM_length in Hdata. apply mapM_length in Hout.
    destruct (get_Some_In _ _ _ Hget) as [_ Hin].
    unfold Spec.rows in Hrows. rewrite Forall_forall in Hrows.
    apply list_elem_of_In, Hrows in Hin. simpl in *. unfold Pandas.len in Hin. lia.
Qed.

Lemma time_data_list_elapsed_witness :
  let self := Make (PStr "log.csv") (Some default_prefix)
                [("time index",
                  FloatCol [1699972450.123; 1699972451.623; 1699976050.5]%float);
                 ("speed", IntCol [3; 4; 5])] 2 true in
  exists out,
    time_data_list self = Ok (0%float :: out)
    /\ length (0%float :: out) = 3%nat
    /\ Forall2 (fun row r => exists h m s,
                  _parse_time row = Ok [h; m; s]
                  /\ r = Spec.elapsed h m s 14 34 10.123)
         [1699972451.623; 1699976050.5]%float out.
Proof.
  intros self.
  apply (time_data_list_elapsed self 3
           (FloatCol [1699972450.123; 1699972451.623; 1699976050.5]%float)
           1699972450.123%float [1699972451.623; 1699976050.5]%float
           14%float 34%float 10.123%float).
  - repeat constructor.
  - reflexivity.
  - reflexivity.
  - vm_compute. reflexivity.
  - repeat constructor.
    + exists 14%float, 34%float, 11.623%float. vm_compute. reflexivity.
    + exists 15%float, 34%float, 10.5%float. vm_compute. reflexivity.
Defined.

(** The series of that table. *)
Example time_data_list_example :
  time_data_list
    (Make (PStr "log.csv") (Some default_prefix)
       [("time index", FloatCol [1699972450.123; 1699972451.623; 1699976050.5]%float);
        ("speed", IntCol [3; 4; 5])] 2 true)
  = Ok [0; 1.5; 3600.377]%float.
Proof. vm_compute. reflexivity. Qed.

(** ** Header groups *)

Lemma key_eqb_eq (a b : option string) : key_eqb a b = true <-> a = b.
Proof.
  destruct a as [x|], b as [y|]; simpl; split; try discriminate; try reflexivity.
  - intros H. apply String.eqb_eq in H. now subst.
  - intros H. injection H as ->. apply String.eqb_refl.
Qed.

Lemma key_eqb_refl (a : option string) : key_eqb a a = true.
Proof. now apply key_eqb_eq. Qed.

Lemma key_eqb_sym (a b : option string) : key_eqb a b = key_eqb b a.
Proof.
  destruct (key_eqb a b) eqn:E.
  - apply key_eqb_eq in E. subst. symmetry. apply key_eqb_refl.
  - destruct (key_eqb b a) eqn:E'; [|reflexivity].
    apply key_eqb_eq in E'. subst. now rewrite key_eqb_refl in E.
Qed.

Lemma key_mem_In (k : option string) (l : list (option string)) :
  Spec.key_mem k l = true <-> In k l.
Proof.
  unfold Spec.key_mem. rewrite existsb_exists. split.
  - intros (x & Hx & E). apply key_eqb_eq in E. now subst.
  - intros H. exists k. split; [assumption | apply key_eqb_refl].
Qed.

Lemma first_occurrences_snoc (seen l : list (option string)) (k : option string) :
  Spec.first_occurrences seen (l ++ [k])%list
  = (Spec.first_occurrences seen l
       ++ (if (Spec.key_mem k seen || Spec.key_mem k l)%bool then [] else [k]))%list.
Proof.
  revert seen. induction l as [|x l IH]; intros seen; simpl.
  - rewrite orb_false_r. now destruct (Spec.key_mem k seen).
  - destruct (Spec.key_mem x seen) eqn:Ex; rewrite IH; simpl.
    + destruct (key_eqb k x) eqn:E; [|reflexivity].
      apply key_eqb_eq in E. subst x. now rewrite Ex.
    + f_equal. rewrite (orb_comm (key_eqb k x)), <- orb_assoc. reflexivity.
Qed.

Lemma first_occurrences_not_seen (seen l : list (option string)) (x : option string) :
  In x (Spec.first_occurrences seen l) -> Spec.key_mem x seen = false /\ In x l.
Proof.
  revert seen. induction l as [|y l IH]; intros seen; simpl; [contradiction|].
  destruct (Spec.key_mem y seen) eqn:Ey.
  - intros H. destruct (IH _ H). auto.
  - intros [->|H]; [auto|]. destruct (IH _ H) as [Hs Hl]. simpl in Hs.
    apply orb_false_elim in Hs as [_ Hs]. auto.
Qed.

Lemma first_occurrences_NoDup (seen l : list (option string)) :
  NoDup (Spec.first_occurrences seen l).
Proof.
  revert seen. induction l as [|y l IH]; intros seen; simpl; [constructor|].
  destruct (Spec.key_mem y seen); [apply IH|]. constructor; [|apply IH].
  intros H. apply list_elem_of_In, first_occurrences_not_seen in H as [H _].
  simpl in H. now rewrite key_eqb_refl in H.
Qed.

Lemma first_occurrences_mem (seen l : list (option string)) (k : option string) :
  Spec.key_mem k (Spec.first_occurrences seen l)
  = (negb (Spec.key_mem k seen) && Spec.key_mem k l)%bool.
Proof.
  revert seen. induction l as [|y l IH]; intros seen; simpl.
  - now rewrite andb_false_r.
  - destruct (Spec.key_mem y seen) eqn:Ey; simpl; rewrite IH; simpl.
    + destruct (key_eqb k y) eqn:E; [|reflexivity].
      apply key_eqb_eq in E. subst y. now rewrite Ey.
    + destruct (key_eqb k y) eqn:E; simpl.
      * apply key_eqb_eq in E. subst y. now rewrite Ey.
      * reflexivity.
Qed.

Lemma members_snoc {V} (k' k : option string) (v : V) (es : list (option string * V)) :
  Spec.members k' (es ++ [(k, v)])%list
  = (Spec.members k' es ++ (if key_eqb k k' then [v] else []))%list.
Proof.
  unfold Spec.members. rewrite List.filter_app, map_app. simpl.
  now destruct (key_eqb k k').
Qed.

Lemma members_absent {V} (k : option string) (es : list (option string * V)) :
  Spec.key_mem k (map fst es) = false -> Spec.members k es = [].
Proof.
  unfold Spec.members. induction es as [|[k' v] es IH]; simpl; [reflexivity|].
  intros H. apply orb_false_elim in H as [E H]. rewrite key_eqb_sym, E. auto.
Qed.

(** [setdefault(k, []).append(v)] on a dictionary whose keys are distinct:
    [v] joins the list of [k], or [k] is added last with the list [[v]]. *)
Lemma setdefault_append_map {V} (f : option string -> list V) (ks : list (option string))
    (k : option string) (v : V) :
  NoDup ks ->
  setdefault_append key_eqb (map (fun k' => (k', f k')) ks) k v
  = (map (fun k' => (k', (f k' ++ (if key_eqb k k' then [v] else []))%list)) ks
       ++ (if Spec.key_mem k ks then [] else [(k, [v])]))%list.
Proof.
  induction 1 as [|x ks Hx Hnd IH]; simpl; [reflexivity|].
  rewrite (key_eqb_sym k x). destruct (key_eqb x k) eqn:E; simpl.
  - apply key_eqb_eq in E. subst x. rewrite app_nil_r. f_equal.
    apply map_ext_in. intros k' Hk'. destruct (key_eqb k k') eqn:E'.
    + apply key_eqb_eq in E'. subst k'. exfalso. now apply Hx, list_elem_of_In.
    + now rewrite app_nil_r.
  - rewrite IH, app_nil_r. reflexivity.
Qed.

(** One turn of the loop: adding an entry to the mapping of the entries
    read so far gives the mapping of the longer list. *)
Lemma setdefault_append_grouped {V} (pre : list (option string * V))
    (k : option string) (v : V) :
  setdefault_append key_eqb (Spec.grouped pre) k v = Spec.grouped (pre ++ [(k, v)])%list.
Proof.
  unfold Spec.grouped.
  rewrite (setdefault_append_map (fun k' => Spec.members k' pre))
    by apply first_occurrences_NoDup.
  rewrite map_app. simpl. rewrite first_occurrences_snoc. simpl.
  rewrite first_occurrences_mem. simpl. rewrite map_app. f_equal.
  - apply map_ext. intros k'. now rewrite members_snoc.
  - destruct (Spec.key_mem k (map fst pre)) eqn:E; simpl; [reflexivity|].
    rewrite members_snoc, key_eqb_refl, (members_absent k pre E). reflexivity.
Qed.

Lemma contains_cut (sub s : string) :
  Str.contains sub s = false <-> Str.cut sub s = None.
Proof. unfold Str.contains. destruct (Str.cut sub s); split; congruence. Qed.

Lemma split_fuel_absent (fuel : nat) (sep s : string) :
  Str.cut sep s = None -> Str.split_fuel fuel sep s = [s].
Proof. intros H. destruct fuel; simpl; [reflexivity | now rewrite H]. Qed.

(** A name that holds the separator once splits into two parts. *)
Lemma split_single (s g k : string) :
  Str.cut "::" s = Some (g, k) -> Str.contains "::" k = false ->
  Str.split "::" s = [g; k].
Proof.
  intros Hcut Hk. unfold Str.split. destruct s as [|c s]; [discriminate|].
  cbn [String.length Str.split_fuel]. rewrite Hcut. f_equal.
  apply split_fuel_absent. now apply contains_cut.
Qed.

(** Replacing a text that does not occur changes nothing. *)
Lemma replace_absent (old new s : string) :
  Str.contains old s = false -> Str.replace old new s = s.
Proof.
  intros H. apply contains_cut in H. destruct old as [|c old].
  - destruct s; discriminate.
  - unfold Str.replace. destruct (String.length s); simpl; [reflexivity|].
    now rewrite H.
Qed.

Lemma stripped_header_replace (self : t) (prefix header : string) :
  _prefix self = Some prefix ->
  stripped_header self header = Ok (Str.replace prefix EmptyString header).
Proof.
  intros Hp. unfold stripped_header. rewrite Hp.
  destruct (Str.contains prefix header) eqn:E; [reflexivity|].
  now rewrite replace_absent.
Qed.

Lemma group_and_key_once (s : string) :
  Spec.single_separator s -> group_and_key s = Ok (Spec.split_once s).
Proof.
  intros Hs. unfold group_and_key, Spec.split_once, Str.contains.
  destruct (Str.cut "::" s) as [[g k]|] eqn:Hcut; [|reflexivity].
  now rewrite (split_single s g k Hcut (Hs g k Hcut)).
Qed.

(** The loop of [headers_mapping], started on the mapping of the entries
    [pre] read so far. *)
Lemma headers_mapping_from_grouped (self : t) (prefix : string) (headers : list string)
    (idx : nat) (pre : list (option string * (string * nat))) :
  _prefix self = Some prefix ->
  Forall (fun h => Spec.single_separator (Str.replace prefix EmptyString h)) headers ->
  headers_mapping_from self idx headers (Spec.grouped pre)
  = Ok (Spec.grouped (pre ++ Spec.entries_from prefix idx headers)%list).
Proof.
  intros Hp Hall. revert idx pre.
  induction Hall as [|h headers Hh _ IH]; intros idx pre; simpl.
  - now rewrite app_nil_r.
  - rewrite (stripped_header_replace self prefix h Hp). cbn [mbind result_bind].
    rewrite (group_and_key_once _ Hh). cbn [mbind result_bind].
    destruct (Spec.split_once (Str.replace prefix EmptyString h)) as [g k].
    rewrite setdefault_append_grouped, IH, <- app_assoc. reflexivity.
Qed.

(** C7, as stated, fails: a header with two separators is split at both,
    the three parts do not fit the two names they are unpacked into, and
    [headers_mapping] raises. *)
Lemma headers_mapping_raises_on_two_separators :
  let self := Make (PStr "log.csv") (Some default_prefix)
                [("time index", IntCol [1; 2]);
                 ("Truma_n_Amcu::DebugData::operationTime", IntCol [3; 4])] 2 true in
  Spec.constructed self
  /\ Spec.split_once "Amcu::DebugData::operationTime"
       = (Some "Amcu", "DebugData::operationTime")
  /\ headers_mapping self
       = Raise (Exn ValueError "too many values to unpack (expected 2)").
Proof.
  intros self. split; [|split; reflexivity].
  apply (constructed_read (PStr "log.csv") (Some default_prefix)
           [("time index", IntCol [1; 2]);
            ("Truma_n_Amcu::DebugData::operationTime", IntCol [3; 4])]).
Qed.

(** C7, amended. When no header, the configured prefix removed wherever
    it occurs, holds the separator more than once, [headers_mapping]
    returns the grouping of the headers: each header without its prefix is
    split at the separator into group and leaf, or lands in the null group
    with itself as leaf; the groups come in the order of their first
    header, the [(leaf, index)] pairs of a group in column order. *)
Theorem headers_mapping_grouped (self : t) (prefix : string) :
  _prefix self = Some prefix ->
  Forall (fun h => Spec.single_separator (Str.replace prefix EmptyString h))
         (header_list self) ->
  headers_mapping self
  = Ok (Spec.grouped (Spec.entries_from prefix 0 (header_list self))).
Proof.
  intros Hp Hall. unfold headers_mapping.
  apply (headers_mapping_from_grouped self prefix (header_list self) 0 [] Hp Hall).
Qed.

Lemma single_separator_absent (s : string) :
  Str.cut "::" s = None -> Spec.single_separator s.
Proof. intros H g k Hcut. congruence. Qed.

Lemma single_separator_once (s g k : string) :
  Str.cut "::" s = Some (g, k) -> Str.contains "::" k = false ->
  Spec.single_separator s.
Proof. intros H Hk g' k' Hcut. rewrite H in Hcut. now injection Hcut as <- <-. Qed.

Lemma headers_mapping_grouped_witness :
  headers_mapping
    (Make (PStr "log.csv") (Some default_prefix)
       [("time index", IntCol [1; 2]);
        ("Truma_n_AmcuDebugData::operationTime", IntCol [3; 4]);
        ("speed", IntCol [5; 6]);
        ("Truma_n_AmcuDebugData::state", IntCol [0; 0])] 4 true)
  = Ok [(None, [("time index", 0%nat); ("speed", 2%nat)]);
        (Some "AmcuDebugData", [("operationTime", 1%nat); ("state", 3%nat)])].
Proof.
  apply (headers_mapping_grouped
           (Make (PStr "log.csv") (Some default_prefix)
              [("time index", IntCol [1; 2]);
               ("Truma_n_AmcuDebugData::operationTime", IntCol [3; 4]);
               ("speed", IntCol [5; 6]);
               ("Truma_n_AmcuDebugData::state", IntCol [0; 0])] 4 true)
           default_prefix).
  - reflexivity.
  - repeat constructor.
    + now apply single_separator_absent.
    + now apply (single_separator_once _ "AmcuDebugData" "operationTime").
    + now apply single_separator_absent.
    + now apply (single_separator_once _ "AmcuDebugData" "state").
Defined.

(** ** Load-time failures *)

Lemma prefix_app (p b : string) : String.prefix p (p +:+ b) = true.
Proof.
  induction p as [|c p IH]; simpl; [now destruct b|].
  destruct (ascii_dec c c); [assumption | contradiction].
Qed.

Lemma cut_prefix (p s : string) :
  String.prefix p s = true -> exists r, Str.cut p s = Some r.
Proof. intros H. destruct s; cbn [Str.cut]; rewrite H; eauto. Qed.

(** A text occurs in every text built around it. *)
Lemma contains_app (a p b : string) : Str.contains p (a +:+ p +:+ b) = true.
Proof.
  unfold Str.contains. induction a as [|c a IH].
  - change (EmptyString +:+ p +:+ b) with (p +:+ b).
    destruct (cut_prefix p (p +:+ b) (prefix_app p b)) as [r ->]. reflexivity.
  - change (String c a +:+ p +:+ b) with (String c (a +:+ p +:+ b)). cbn [Str.cut].
    destruct (String.prefix p (String c (a +:+ p +:+ b))); [reflexivity|].
    now destruct (Str.cut p (a +:+ p +:+ b)) as [[x y]|].
Qed.

(** C8, as stated, fails: the failures are not six distinct kinds to
    catch. A file that cannot be decoded and a path argument of a wrong
    type both come out as [ValueError]; only the message differs. *)
Lemma load_failures_share_a_class :
  Spec.load_failure_of UnicodeDecodeError = Spec.InvalidEncoding
  /\ Spec.load_failure_of ValueError = Spec.InvalidPathType
  /\ _load_data (PStr "log.xlsx") (fun _ => raise UnicodeDecodeError "invalid start byte")
       = Raise (Exn ValueError "Invalid file type: .xlsx")
  /\ _load_data (PInt 4) (fun _ => raise ValueError "not a path")
       = Raise (Exn ValueError "Invalid file path or buffer object type: <class 'int'>")
  /\ ~ (forall (fp1 fp2 : pyval) (c1 c2 e1 e2 : exn),
          Spec.load_failure_of (exn_cls c1) <> Spec.load_failure_of (exn_cls c2) ->
          _load_data fp1 (fun _ => Raise c1) = Raise e1 ->
          _load_data fp2 (fun _ => Raise c2) = Raise e2 ->
          exn_cls e1 <> exn_cls e2).
Proof.
  repeat split. intros H.
  apply (H (PStr "log.xlsx") (PInt 4)
           (Exn UnicodeDecodeError "invalid start byte") (Exn ValueError "not a path")
           (Exn ValueError "Invalid file type: .xlsx")
           (Exn ValueError "Invalid file path or buffer object type: <class 'int'>"));
    [discriminate | reflexivity | reflexivity | reflexivity].
Qed.

(** C8, amended. What [_load_data] raises for each failure of [read_csv]:
    [NotFound] as [FileNotFoundError] and [EmptyData] as [EmptyDataError],
    the message naming the path; [InvalidEncoding] and [InvalidPathType]
    both as [ValueError], the message naming the extension of the path,
    or the type of the path argument; [MissingArgument] as [TypeError] with
    a fixed message; [Unexpected] as [Exception] with the text of the
    cause. Failures of two kinds on one path have different messages. A
    path that does not exist makes the constructor fail with
    [FileNotFoundError] and a message that contains the path. *)
Theorem load_failure_kinds :
  (forall (p : string) (read_csv : pyval -> result DataFrame) (cause : exn),
      read_csv (PStr p) = Raise cause ->
      _load_data (PStr p) read_csv
      = Raise match Spec.load_failure_of (exn_cls cause) with
              | Spec.NotFound =>
                  Exn FileNotFoundError ("The file " +:+ p +:+ " was not found.")
              | Spec.EmptyData =>
                  Exn EmptyDataError ("No columns to parse from file: " +:+ p)
              | Spec.InvalidEncoding =>
                  Exn ValueError ("Invalid file type: " +:+ Py.suffix p)
              | Spec.InvalidPathType =>
                  Exn ValueError "Invalid file path or buffer object type: <class 'str'>"
              | Spec.MissingArgument =>
                  Exn TypeError "Missing 1 required positional argument: 'filepath"
              | Spec.Unexpected =>
                  Exn Exception ("An unexpected error occurred: " +:+ exn_msg cause)
              end)
  /\ (forall (filepath : pyval) (read_csv : pyval -> result DataFrame) (cause : exn),
         read_csv filepath = Raise cause ->
         Spec.load_failure_of (exn_cls cause) = Spec.InvalidPathType ->
         _load_data filepath read_csv
         = Raise (Exn ValueError ("Invalid file path or buffer object type: "
                                  +:+ type_repr filepath)))
  /\ (forall (filepath : pyval) (read1 read2 : pyval -> result DataFrame)
             (cause1 cause2 e1 e2 : exn),
         read1 filepath = Raise cause1 ->
         read2 filepath = Raise cause2 ->
         Spec.load_failure_of (exn_cls cause1) <> Spec.load_failure_of (exn_cls cause2) ->
         _load_data filepath read1 = Raise e1 ->
         _load_data filepath read2 = Raise e2 ->
         exn_msg e1 <> exn_msg e2)
  /\ (forall (p : string) (prefix : option string)
             (read_csv : pyval -> result DataFrame) (cause : exn),
         read_csv (PStr p) = Raise cause ->
         Spec.load_failure_of (exn_cls cause) = Spec.NotFound ->
         exists e,
           __init__ (Some (PStr p)) prefix read_csv = Raise e
           /\ exn_cls e = FileNotFoundError
           /\ Str.contains p (exn_msg e) = true).
Proof.
  split; [|split; [|split]].
  - intros p read_csv cause H. unfold _load_data, Spec.load_failure_of.
    rewrite H. case_clauses; reflexivity.
  - intros fp read_csv cause H Hk. unfold _load_data. rewrite H.
    unfold Spec.load_failure_of in Hk. case_clauses; try discriminate. reflexivity.
  - intros fp read1 read2 c1 c2 e1 e2 H1 H2 Hk L1 L2.
    unfold _load_data in L1, L2. rewrite H1 in L1. rewrite H2 in L2.
    unfold Spec.load_failure_of in Hk.
    destruct (issubclass (exn_cls c1) FileNotFoundError),
      (issubclass (exn_cls c1) EmptyDataError),
      (issubclass (exn_cls c1) UnicodeDecodeError),
      (issubclass (exn_cls c1) ValueError),
      (issubclass (exn_cls c1) TypeError),
      (issubclass (exn_cls c2) FileNotFoundError),
      (issubclass (exn_cls c2) EmptyDataError),
      (issubclass (exn_cls c2) UnicodeDecodeError),
      (issubclass (exn_cls c2) ValueError),
      (issubclass (exn_cls c2) TypeError);
      try (now destruct Hk);
      destruct fp; cbn in L1, L2;
      injection L1 as <-; injection L2 as <-; cbn; discriminate.
  - intros p prefix read_csv cause H Hk. unfold __init__, _load_data. rewrite H.
    unfold Spec.load_failure_of in Hk.
    destruct (issubclass (exn_cls cause) FileNotFoundError).
    + eexists. split; [reflexivity|]. split; [reflexivity|].
      cbn [exn_msg str]. apply contains_app.
    + exfalso. case_clauses; discriminate.
Qed.

Lemma load_failure_kinds_witness :
  exists e,
    __init__ (Some (PStr "missing.csv")) (Some default_prefix)
      (fun _ => raise FileNotFoundError
                  "[Errno 2] No such file or directory: 'missing.csv'")
    = Raise e
    /\ exn_cls e = FileNotFoundError
    /\ Str.contains "missing.csv" (exn_msg e) = true.
Proof.
  apply (proj2 (proj2 (proj2 load_failure_kinds)) "missing.csv" (Some default_prefix)
           (fun _ => raise FileNotFoundError
                       "[Errno 2] No such file or directory: 'missing.csv'")
           (Exn FileNotFoundError "[Errno 2] No such file or directory: 'missing.csv'"));
    reflexivity.
Defined.

(** The constructor called without a path: Python rejects the call. *)
Example init_without_filepath :
  __init__ None (Some default_prefix) (fun _ => Ok [])
  = Raise (Exn TypeError
             "CSVDataManager.__init__() missing 1 required positional argument: 'filepath'").
Proof. reflexivity. Qed.

(** * Further properties of the data layer *)

(** ** Selectors and the column they resolve to *)

(** What a call that [_validate_input] lets pass looks like. *)
Lemma validate_input_passed (self : t) (idx hdr : pyval) :
  _validate_input self idx hdr = Ok tt ->
  (exists i, idx = PInt i /\ hdr = PNone /\ 0 <= i < _nr_of_data self)
  \/ (exists h, idx = PNone /\ hdr = PStr h /\ In h (header_list self)).
Proof.
  unfold _validate_input, _validate_index, _validate_header.
  destruct idx as [|i|s], hdr as [|j|h]; cbn; try discriminate.
  - destruct (Str.mem h (header_list self)) eqn:E; cbn; [|discriminate].
    intros _. right. exists h. repeat split. now apply mem_In.
  - destruct ((i <? 0) || (_nr_of_data self <=? i))%bool eqn:E; cbn; [discriminate|].
    intros _. left. exists i. apply orb_false_elim in E as [E1 E2].
    apply Z.ltb_ge in E1. apply Z.leb_gt in E2. repeat split; lia.
  - destruct ((i <? 0) || (_nr_of_data self <=? i))%bool; cbn; discriminate.
  - destruct ((i <? 0) || (_nr_of_data self <=? i))%bool; cbn; [discriminate|].
    destruct (Str.mem h (header_list self)); cbn; discriminate.
  - destruct (Str.mem h (header_list self)); cbn; discriminate.
Qed.

(** X1. [_validate_input] accepts exactly the calls with one selector of
    the right type that names a column: an integer index within
    [[0, columnCount)] and no header, or no index and a string header that
    is a header of the table. *)
Theorem validate_input_accepts (self : t) (idx hdr : pyval) :
  _validate_input self idx hdr = Ok tt
  <-> (exists i, idx = PInt i /\ hdr = PNone /\ 0 <= i < _nr_of_data self)
      \/ (exists h, idx = PNone /\ hdr = PStr h /\ In h (header_list self)).
Proof.
  split; [apply validate_input_passed|].
  unfold _validate_input, _validate_index, _validate_header.
  intros [(i & -> & -> & Hi)|(h & -> & -> & Hh)]; cbn.
  - replace ((i <? 0) || (_nr_of_data self <=? i))%bool with false; [reflexivity|].
    symmetry. apply orb_false_intro; [apply Z.ltb_ge | apply Z.leb_gt]; lia.
  - now rewrite (proj2 (mem_In _ _) Hh).
Qed.

(** X6. The order of the checks of [_validate_input]: an integer index
    out of range is reported as [IndexError] whatever the header argument
    is; otherwise a string header that is not a header of the table is
    reported as [ValueError: Header ... not found] whatever the index
    argument is, before the combination of the two is looked at. *)
Theorem validate_input_error_order (self : t) :
  (forall i hdr,
      i < 0 \/ _nr_of_data self <= i ->
      _validate_input self (PInt i) hdr
      = Raise (Exn IndexError ("Index '" +:+ Str.of_Z i +:+ "' out of range.")))
  /\ (forall idx h,
         _validate_index self idx = Ok tt ->
         ~ In h (header_list self) ->
         _validate_input self idx (PStr h)
         = Raise (Exn ValueError ("Header '" +:+ h +:+ "' not found"))).
Proof.
  split.
  - intros i hdr Hi. unfold _validate_input, _validate_index.
    replace ((i <? 0) || (_nr_of_data self <=? i))%bool with true; [reflexivity|].
    symmetry. apply orb_true_iff.
    destruct Hi; [left; apply Z.ltb_lt | right; apply Z.leb_le]; lia.
  - intros idx h Hi Hh. unfold _validate_input. rewrite Hi.
    cbn [mbind result_bind]. unfold _validate_header.
    destruct (Str.mem h (header_list self)) eqn:E; [|reflexivity].
    now apply mem_In in E.
Qed.

Lemma validate_input_error_order_witness :
  let self := Make (PStr "log.csv") (Some default_prefix)
                [("time index", IntCol [1; 2]); ("speed", IntCol [3; 4])] 2 true in
  _validate_input self (PInt 5) (PStr "torque")
    = Raise (Exn IndexError "Index '5' out of range.")
  /\ _validate_input self (PInt 1) (PStr "torque")
     = Raise (Exn ValueError "Header 'torque' not found").
Proof.
  intros self. split.
  - apply (proj1 (validate_input_error_order self) 5 (PStr "torque")). right. simpl. lia.
  - apply (proj2 (validate_input_error_order self) (PInt 1) "torque").
    + reflexivity.
    + simpl. intros [H|[H|[]]]; discriminate.
Defined.

Lemma get_app_absent (pre suf : DataFrame) (h : string) (c : column) :
  ~ In h (Pandas.columns pre) -> Pandas.get (pre ++ (h, c) :: suf)%list h = Some c.
Proof.
  induction pre as [|[h' c'] pre IH]; simpl; intros H.
  - now rewrite String.eqb_refl.
  - destruct (String.eqb h' h) eqn:E.
    + apply String.eqb_eq in E. subst. exfalso. apply H. now left.
    + apply IH. intros ?. apply H. now right.
Qed.

(** In a frame with unique labels the label of a column finds that column. *)
Lemma get_nth (df : DataFrame) (i : nat) (h : string) (c : column) :
  NoDup (Pandas.columns df) -> nth_error df i = Some (h, c) -> Pandas.get df h = Some c.
Proof.
  intros Hnd Hi. apply nth_error_split in Hi as (pre & suf & -> & _).
  apply get_app_absent. unfold Pandas.columns in *. rewrite map_app in Hnd.
  apply NoDup_app in Hnd as (_ & Hd & _). intros Hin.
  apply (Hd h); [now apply list_elem_of_In | simpl; left].
Qed.

Lemma iloc_nth (df : DataFrame) (i : Z) :
  0 <= i < Z.of_nat (length df) ->
  exists h c, nth_error df (Z.to_nat i) = Some (h, c) /\ Pandas.iloc df i = Ok c.
Proof.
  intros Hi. unfold Pandas.iloc.
  replace (i <? 0) with false by (symmetry; apply Z.ltb_ge; lia).
  replace ((0 <=? i) && (i <? Z.of_nat (length df)))%bool with true
    by (symmetry; apply andb_true_intro; split; [apply Z.leb_le | apply Z.ltb_lt]; lia).
  destruct (nth_error df (Z.to_nat i)) as [[h c]|] eqn:E.
  - exists h, c. auto.
  - apply nth_error_None in E. lia.
Qed.

Lemma constructed_length (self : t) :
  Spec.constructed self -> _nr_of_data self = Z.of_nat (length (_dataframe self)).
Proof.
  intros H. rewrite (constructed_nr_of_data self H).
  unfold header_list, Pandas.columns. now rewrite length_map.
Qed.

(** X2. On a loaded table [_get_raw_data] never returns [None]: whenever
    it returns, it returns a column of the table: the column at the
    position of an index selector, the column labelled by a header
    selector. *)
Theorem get_raw_data_is_a_column (self : t) (idx hdr : pyval) (data : option column) :
  Spec.constructed self ->
  _get_raw_data self idx hdr = Ok data ->
  exists h c, data = Some c /\ In (h, c) (_dataframe self)
    /\ ((exists i, idx = PInt i /\ hdr = PNone
                   /\ nth_error (_dataframe self) (Z.to_nat i) = Some (h, c))
        \/ (idx = PNone /\ hdr = PStr h /\ Pandas.get (_dataframe self) h = Some c)).
Proof.
  intros Hc H. pose proof (constructed_length self Hc) as Hn.
  unfold _get_raw_data in H.
  destruct (_validate_input self idx hdr) as [[]|e] eqn:V; [|discriminate].
  apply validate_input_passed in V as [(i & -> & -> & Hi)|(h & -> & -> & Hh)];
    cbn [mbind result_bind is_none negb] in H.
  - unfold _get_data_by_index, _validate_index in H.
    replace ((i <? 0) || (_nr_of_data self <=? i))%bool with false in H
      by (symmetry; apply orb_false_intro; [apply Z.ltb_ge | apply Z.leb_gt]; lia).
    cbn [mbind result_bind] in H.
    destruct (iloc_nth (_dataframe self) i) as (h & c & Hnth & Hiloc); [lia|].
    rewrite Hiloc in H. cbn in H. injection H as <-.
    exists h, c. split; [reflexivity|]. split; [eapply nth_error_In; eauto|].
    left. exists i. auto.
  - unfold _get_data_by_header, _validate_header in H.
    rewrite (proj2 (mem_In _ _) Hh) in H. cbn in H. injection H as <-.
    destruct (get_own_label _ h Hh) as (c & Hg & _).
    exists h, c. split; [assumption|]. split; [now apply get_Some_In in Hg|].
    right. auto.
Qed.

Lemma get_raw_data_is_a_column_witness :
  let self := Make (PStr "log.csv") (Some default_prefix)
                [("time index", IntCol [1; 2]); ("speed", IntCol [3; 4])] 2 true in
  exists h c, Some (IntCol [3; 4]) = Some c /\ In (h, c) (_dataframe self)
    /\ ((exists i, PInt 1 = PInt i /\ PNone = PNone
                   /\ nth_error (_dataframe self) (Z.to_nat i) = Some (h, c))
        \/ (PInt 1 = PNone /\ PNone = PStr h /\ Pandas.get (_dataframe self) h = Some c)).
Proof.
  intros self.
  apply (get_raw_data_is_a_column self (PInt 1) PNone (Some (IntCol [3; 4]))).
  - apply (constructed_read (PStr "log.csv") (Some default_prefix)
             [("time index", IntCol [1; 2]); ("speed", IntCol [3; 4])]).
  - reflexivity.
Defined.

(** [get_header] at a valid index of a loaded table. *)
Lemma get_header_nth (self : t) (i : Z) :
  Spec.constructed self -> 0 <= i < _nr_of_data self ->
  exists h c, nth_error (_dataframe self) (Z.to_nat i) = Some (h, c)
              /\ get_header self i = Ok h.
Proof.
  intros Hc Hi. pose proof (constructed_length self Hc) as Hn.
  destruct (iloc_nth (_dataframe self) i) as (h & c & Hnth & _); [lia|].
  exists h, c. split; [assumption|].
  unfold get_header, _validate_index.
  replace ((i <? 0) || (_nr_of_data self <=? i))%bool with false
    by (symmetry; apply orb_false_intro; [apply Z.ltb_ge | apply Z.leb_gt]; lia).
  cbn [mbind result_bind]. unfold Py.index, header_list, Pandas.columns.
  now rewrite nth_error_map, Hnth.
Qed.

(** X3. On a loaded table with unique header names, selecting a column by
    a valid index and selecting it by the header at that index give the
    same raw column, the same values and the same extrema. *)
Theorem index_and_header_select_the_same (self : t) (i : Z) :
  Spec.constructed self ->
  NoDup (header_list self) ->
  0 <= i < _nr_of_data self ->
  exists h,
    get_header self i = Ok h
    /\ _get_raw_data self (PInt i) PNone = _get_raw_data self PNone (PStr h)
    /\ get_data self (PInt i) PNone = get_data self PNone (PStr h)
    /\ get_data_extrema self (PInt i) PNone = get_data_extrema self PNone (PStr h).
Proof.
  intros Hc Hnd Hi. pose proof (constructed_length self Hc) as Hn.
  destruct (get_header_nth self i Hc Hi) as (h & c & Hnth & Hh).
  exists h. split; [assumption|].
  assert (Hraw : _get_raw_data self (PInt i) PNone = _get_raw_data self PNone (PStr h)).
  { assert (Hin : In h (header_list self)).
    { unfold header_list, Pandas.columns. apply in_map_iff. exists (h, c).
      split; [reflexivity | eapply nth_error_In; eauto]. }
    unfold _get_raw_data, _validate_input, _get_data_by_index, _get_data_by_header,
      _validate_index, _validate_header.
    replace ((i <? 0) || (_nr_of_data self <=? i))%bool with false
      by (symmetry; apply orb_false_intro; [apply Z.ltb_ge | apply Z.leb_gt]; lia).
    rewrite (proj2 (mem_In _ _) Hin). cbn.
    destruct (iloc_nth (_dataframe self) i) as (h' & c' & Hnth' & ->); [lia|].
    rewrite Hnth in Hnth'. injection Hnth' as <- <-.
    now rewrite (get_nth _ _ _ _ Hnd Hnth). }
  split; [exact Hraw|]. unfold get_data, get_data_extrema. now rewrite Hraw.
Qed.

Lemma index_and_header_select_the_same_witness :
  let self := Make (PStr "log.csv") (Some default_prefix)
                [("time index", IntCol [1; 2]); ("speed", IntCol [3; 4])] 2 true in
  exists h,
    get_header self 1 = Ok h
    /\ _get_raw_data self (PInt 1) PNone = _get_raw_data self PNone (PStr h)
    /\ get_data self (PInt 1) PNone = get_data self PNone (PStr h)
    /\ get_data_extrema self (PInt 1) PNone = get_data_extrema self PNone (PStr h).
Proof.
  intros self. apply index_and_header_select_the_same.
  - apply (constructed_read (PStr "log.csv") (Some default_prefix)
             [("time index", IntCol [1; 2]); ("speed", IntCol [3; 4])]).
  - repeat constructor; intros H; repeat (apply elem_of_cons in H as [H|H];
      [discriminate|]); now apply elem_of_nil in H.
  - simpl. lia.
Defined.

(** X4. [get_header] on a loaded table: an index within
    [[0, columnCount)] gives the header at that position, any other integer
    raises [IndexError] with the index in the message. *)
Theorem get_header_bounds (self : t) (i : Z) :
  Spec.constructed self ->
  (0 <= i < _nr_of_data self ->
   exists h, nth_error (header_list self) (Z.to_nat i) = Some h
             /\ get_header self i = Ok h)
  /\ (i < 0 \/ _nr_of_data self <= i ->
      get_header self i
      = Raise (Exn IndexError ("Index '" +:+ Str.of_Z i +:+ "' out of range."))).
Proof.
  intros Hc. split.
  - intros Hi. destruct (get_header_nth self i Hc Hi) as (h & c & Hnth & Hh).
    exists h. split; [|assumption].
    unfold header_list, Pandas.columns. now rewrite nth_error_map, Hnth.
  - intros Hi. unfold get_header, _validate_index.
    replace ((i <? 0) || (_nr_of_data self <=? i))%bool with true; [reflexivity|].
    symmetry. apply orb_true_iff.
    destruct Hi; [left; apply Z.ltb_lt | right; apply Z.leb_le]; lia.
Qed.

Lemma get_header_bounds_witness :
  let self := Make (PStr "log.csv") (Some default_prefix)
                [("time index", IntCol [1; 2]); ("speed", IntCol [3; 4])] 2 true in
  get_header self 2 = Raise (Exn IndexError "Index '2' out of range.")
  /\ get_header self (-1) = Raise (Exn IndexError "Index '-1' out of range.")
  /\ exists h, nth_error (header_list self) 1 = Some h /\ get_header self 1 = Ok h.
Proof.
  intros self.
  assert (Hc : Spec.constructed self)
    by apply (constructed_read (PStr "log.csv") (Some default_prefix)
                [("time index", IntCol [1; 2]); ("speed", IntCol [3; 4])]).
  split; [|split].
  - apply (proj2 (get_header_bounds self 2 Hc)). right. simpl. lia.
  - apply (proj2 (get_header_bounds self (-1) Hc)). left. lia.
  - apply (proj1 (get_header_bounds self 1 Hc)). simpl. lia.
Defined.

(** X5. [get_index] on a loaded table with unique header names: a header of
    the table gives its position, at which [get_header] returns the same
    header; any other string raises [ValueError] with the header in the
    message. *)
Theorem get_index_round_trip (self : t) (h : string) :
  Spec.constructed self ->
  NoDup (header_list self) ->
  (In h (header_list self) ->
   exists i, get_index self h = Ok i
             /\ 0 <= i < _nr_of_data self
             /\ get_header self i = Ok h)
  /\ (~ In h (header_list self) ->
      get_index self h = Raise (Exn ValueError ("Header '" +:+ h +:+ "' not found"))).
Proof.
  intros Hc Hnd. pose proof (constructed_nr_of_data self Hc) as Hn. split.
  - intros Hin. unfold get_index, _validate_header.
    rewrite (proj2 (mem_In _ _) Hin). cbn [negb mbind result_bind].
    unfold Pandas.get_loc. rewrite (filter_eqb_once _ _ Hnd Hin).
    destruct (In_nth_error _ _ Hin) as [p Hp].
    rewrite (position_nth _ _ _ 0%nat Hnd Hp). simpl.
    assert (Hlt : (p < length (header_list self))%nat)
      by (apply nth_error_Some; congruence).
    exists (Z.of_nat p). split; [reflexivity|]. split; [lia|].
    unfold get_header, _validate_index.
    replace ((Z.of_nat p <? 0) || (_nr_of_data self <=? Z.of_nat p))%bool with false
      by (symmetry; apply orb_false_intro; [apply Z.ltb_ge | apply Z.leb_gt]; lia).
    cbn [mbind result_bind]. unfold Py.index. now rewrite Nat2Z.id, Hp.
  - intros Hin. unfold get_index, _validate_header.
    destruct (Str.mem h (header_list self)) eqn:E; [|reflexivity].
    now apply mem_In in E.
Qed.

Lemma get_index_round_trip_witness :
  let self := Make (PStr "log.csv") (Some default_prefix)
                [("time index", IntCol [1; 2]); ("speed", IntCol [3; 4])] 2 true in
  (exists i, get_index self "speed" = Ok i /\ 0 <= i < 2 /\ get_header self i = Ok "speed")
  /\ get_index self "torque" = Raise (Exn ValueError "Header 'torque' not found").
Proof.
  intros self.
  assert (Hc : Spec.constructed self)
    by apply (constructed_read (PStr "log.csv") (Some default_prefix)
                [("time index", IntCol [1; 2]); ("speed", IntCol [3; 4])]).
  assert (Hnd : NoDup (header_list self)).
  { repeat constructor; intros H; repeat (apply elem_of_cons in H as [H|H];
      [discriminate|]); now apply elem_of_nil in H. }
  split.
  - apply (proj1 (get_index_round_trip self "speed" Hc Hnd)). simpl. auto.
  - apply (proj2 (get_index_round_trip self "torque" Hc Hnd)).
    simpl. intros [H|[H|[]]]; discriminate.
Defined.

(** ** The classification of the columns *)

Lemma positions_from_ge (p : column -> bool) (idx : nat) (df : DataFrame) (i : nat) :
  In i (Spec.positions_from p idx df) -> (idx <= i)%nat.
Proof.
  revert idx. induction df as [|[h c] df IH]; simpl; intros idx H; [contradiction|].
  destruct (p c); [destruct H as [<-|H]; [lia|]|]; apply IH in H; lia.
Qed.

Lemma positions_from_In (p : column -> bool) (idx : nat) (df : DataFrame) (i : nat) :
  In i (Spec.positions_from p idx df)
  <-> (idx <= i)%nat
      /\ exists h c, nth_error df (i - idx) = Some (h, c) /\ p c = true.
Proof.
  revert idx. induction df as [|[h c] df IH]; intros idx; simpl.
  - split; [contradiction|]. intros (_ & h & c & H & _). now destruct (i - idx)%nat.
  - split.
    + intros H. assert (Hin : i = idx /\ p c = true \/ In i (Spec.positions_from p (S idx) df)).
      { destruct (p c); [destruct H as [<-|H]|]; auto. }
      destruct Hin as [[-> Hp]|Hin].
      * split; [lia|]. exists h, c. now rewrite Nat.sub_diag.
      * apply IH in Hin as (Hle & h' & c' & Hn & Hp). split; [lia|].
        exists h', c'. replace (i - idx)%nat with (S (i - S idx)) by lia. auto.
    + intros (Hle & h' & c' & Hn & Hp).
      destruct (Nat.eq_dec i idx) as [->|Hne].
      * rewrite Nat.sub_diag in Hn. injection Hn as <- <-. rewrite Hp. now left.
      * replace (i - idx)%nat with (S (i - S idx)) in Hn by lia.
        assert (Hin : In i (Spec.positions_from p (S idx) df)).
        { apply IH. split; [lia|]. exists h', c'. auto. }
        destruct (p c); [now right | assumption].
Qed.

Lemma positions_from_sorted (p : column -> bool) (idx : nat) (df : DataFrame) :
  StronglySorted lt (Spec.positions_from p idx df).
Proof.
  revert idx. induction df as [|[h c] df IH]; intros idx; simpl; [constructor|].
  destruct (p c); [|apply IH]. constructor; [apply IH|].
  apply Forall_forall. intros i Hi. apply list_elem_of_In, positions_from_ge in Hi. lia.
Qed.

(** The loop of [const_data_index_list] over the columns [suf] that follow
    the columns [pre], in a frame with unique labels and a first row. *)
Lemma const_data_from_positions (self : t) (n : nat) (pre suf : DataFrame) :
  _dataframe self = (pre ++ suf)%list ->
  NoDup (header_list self) ->
  Spec.rows (_dataframe self) n -> n <> 0%nat ->
  const_data_from self (length pre) (Pandas.columns suf)
  = Ok (Spec.positions_from Spec.all_equal_first (length pre) suf).
Proof.
  intros Hdf Hnd Hrows Hn. revert pre Hdf.
  induction suf as [|[h c] suf IH]; intros pre Hdf; [reflexivity|].
  assert (Hget : Pandas.get (_dataframe self) h = Some c).
  { rewrite Hdf. apply get_app_absent. unfold header_list in Hnd.
    rewrite Hdf in Hnd. unfold Pandas.columns in *. rewrite map_app in Hnd.
    apply NoDup_app in Hnd as (_ & Hd & _). intros Hin.
    apply (Hd h); [now apply list_elem_of_In | simpl; left]. }
  assert (Hlen : Pandas.len c = n).
  { unfold Spec.rows in Hrows. rewrite Forall_forall in Hrows.
    apply (Hrows (h, c)). apply list_elem_of_In. rewrite Hdf.
    apply in_or_app. right. now left. }
  cbn [Pandas.columns map fst const_data_from]. unfold Pandas.getitem.
  rewrite Hget. cbn [mbind result_bind].
  unfold Pandas.iloc0, Spec.all_equal_first, Pandas.len in *.
  destruct (Pandas.values c) as [|first vs] eqn:Hv; [simpl in Hlen; congruence|].
  cbn [mbind result_bind]. fold (Pandas.columns suf).
  specialize (IH (pre ++ [(h, c)])%list).
  rewrite length_app, Nat.add_1_r in IH. rewrite IH by (now rewrite <- app_assoc).
  cbn [mbind result_bind Spec.positions_from]. rewrite Hv. reflexivity.
Qed.

(** The loop of [const_zero_data_index_list] likewise; it needs no row. *)
Lemma const_zero_data_from_positions (self : t) (pre suf : DataFrame) :
  _dataframe self = (pre ++ suf)%list ->
  NoDup (header_list self) ->
  const_zero_data_from self (length pre) (Pandas.columns suf)
  = Ok (Spec.positions_from Spec.all_zero (length pre) suf).
Proof.
  intros Hdf Hnd. revert pre Hdf.
  induction suf as [|[h c] suf IH]; intros pre Hdf; [reflexivity|].
  assert (Hget : Pandas.get (_dataframe self) h = Some c).
  { rewrite Hdf. apply get_app_absent. unfold header_list in Hnd.
    rewrite Hdf in Hnd. unfold Pandas.columns in *. rewrite map_app in Hnd.
    apply NoDup_app in Hnd as (_ & Hd & _). intros Hin.
    apply (Hd h); [now apply list_elem_of_In | simpl; left]. }
  cbn [Pandas.columns map fst const_zero_data_from]. unfold Pandas.getitem.
  rewrite Hget. cbn [mbind result_bind]. fold (Pandas.columns suf).
  specialize (IH (pre ++ [(h, c)])%list).
  rewrite length_app, Nat.add_1_r in IH. rewrite IH by (now rewrite <- app_assoc).
  reflexivity.
Qed.

(** X7. On a table with unique header names and at least one row,
    [const_data_index_list] returns, in increasing order, exactly the
    indices of the columns whose cells all equal the first cell. *)
Theorem const_data_index_list_exact (self : t) (n : nat) :
  NoDup (header_list self) ->
  Spec.rows (_dataframe self) n -> n <> 0%nat ->
  exists consts,
    const_data_index_list self = Ok consts
    /\ StronglySorted lt consts
    /\ forall i, In i consts
         <-> exists h c, nth_error (_dataframe self) i = Some (h, c)
                         /\ Spec.all_equal_first c = true.
Proof.
  intros Hnd Hrows Hn. eexists. split; [|split].
  - apply (const_data_from_positions self n [] (_dataframe self) eq_refl Hnd Hrows Hn).
  - apply positions_from_sorted.
  - intros i. rewrite positions_from_In. simpl. rewrite Nat.sub_0_r.
    split; [now intros [_ H] | intros H; split; [lia | exact H]].
Qed.

Lemma const_data_index_list_exact_witness :
  let self := Make (PStr "log.csv") (Some default_prefix)
                [("time index", FloatCol [1699972450.123; 1699972451.623]%float);
                 ("state", IntCol [0; 0]);
                 ("mode", IntCol [4; 4])] 3 true in
  exists consts,
    const_data_index_list self = Ok consts
    /\ StronglySorted lt consts
    /\ forall i, In i consts
         <-> exists h c, nth_error (_dataframe self) i = Some (h, c)
                         /\ Spec.all_equal_first c = true.
Proof.
  intros self. apply (const_data_index_list_exact self 2).
  - repeat constructor; intros H; repeat (apply elem_of_cons in H as [H|H];
      [discriminate|]); now apply elem_of_nil in H.
  - repeat constructor.
  - discriminate.
Defined.

Lemma positions_from_all (p : column -> bool) (idx : nat) (df : DataFrame) :
  Forall (fun hc => p (snd hc) = true) df ->
  Spec.positions_from p idx df = seq idx (length df).
Proof.
  intros H. revert idx. induction H as [|[h c] df Hp _ IH]; intros idx; simpl; [reflexivity|].
  simpl in Hp. rewrite Hp. f_equal. apply IH.
Qed.

(** X8. On every table with unique header names, also one without rows,
    [const_zero_data_index_list] returns: in increasing order, exactly the
    indices of the columns whose cells all equal [0]. On a table without
    rows these are all the indices. *)
Theorem const_zero_data_index_list_exact (self : t) :
  NoDup (header_list self) ->
  exists zeros,
    const_zero_data_index_list self = Ok zeros
    /\ StronglySorted lt zeros
    /\ (forall i, In i zeros
          <-> exists h c, nth_error (_dataframe self) i = Some (h, c)
                          /\ Spec.all_zero c = true)
    /\ (Spec.rows (_dataframe self) 0 -> zeros = index_list self).
Proof.
  intros Hnd. eexists. split; [|split; [|split]].
  - apply (const_zero_data_from_positions self [] (_dataframe self) eq_refl Hnd).
  - apply positions_from_sorted.
  - intros i. rewrite positions_from_In. simpl. rewrite Nat.sub_0_r.
    split; [now intros [_ H] | intros H; split; [lia | exact H]].
  - intros Hrows. unfold index_list, header_list, Pandas.columns.
    rewrite length_map. apply positions_from_all.
    unfold Spec.rows in Hrows. rewrite Forall_forall in Hrows. apply Forall_forall.
    intros [h c] Hin. apply Hrows in Hin. simpl in *.
    unfold Spec.all_zero, Pandas.eq, Pandas.len in *.
    now destruct (Pandas.values c).
Qed.

Lemma const_zero_data_index_list_exact_witness :
  let self := Make (PStr "log.csv") (Some default_prefix)
                [("time index", ObjCol []); ("state", ObjCol [])] 2 true in
  exists zeros,
    const_zero_data_index_list self = Ok zeros
    /\ StronglySorted lt zeros
    /\ (forall i, In i zeros
          <-> exists h c, nth_error (_dataframe self) i = Some (h, c)
                          /\ Spec.all_zero c = true)
    /\ (Spec.rows (_dataframe self) 0 -> zeros = index_list self).
Proof.
  intros self. apply const_zero_data_index_list_exact.
  repeat constructor; intros H; repeat (apply elem_of_cons in H as [H|H];
    [discriminate|]); now apply elem_of_nil in H.
Defined.

(** X9. A column whose first cell is missing (NaN) is never classified as
    constant, whatever its other cells are, also when every cell is
    missing: NaN does not equal itself. *)
Theorem missing_first_cell_is_not_constant (self : t) (n i : nat) (h : string)
    (c : column) (rest : list scalar) :
  NoDup (header_list self) ->
  Spec.rows (_dataframe self) n -> n <> 0%nat ->
  nth_error (_dataframe self) i = Some (h, c) ->
  Pandas.values c = SFloat nan :: rest ->
  exists consts, const_data_index_list self = Ok consts /\ ~ In i consts.
Proof.
  intros Hnd Hrows Hn Hi Hv. eexists. split.
  - apply (const_data_from_positions self n [] (_dataframe self) eq_refl Hnd Hrows Hn).
  - rewrite positions_from_In. intros (_ & h' & c' & Hi' & Hp).
    simpl in Hi'. rewrite Nat.sub_0_r, Hi in Hi'. injection Hi' as <- <-.
    unfold Spec.all_equal_first, Pandas.all, Pandas.eq in Hp. rewrite Hv in Hp.
    discriminate.
Qed.

Lemma missing_first_cell_is_not_constant_witness :
  let self := Make (PStr "log.csv") (Some default_prefix)
                [("time index", FloatCol [1699972450.123; 1699972451.623]%float);
                 ("torque", FloatCol [nan; nan]%float)] 2 true in
  exists consts, const_data_index_list self = Ok consts /\ ~ In 1%nat consts.
Proof.
  intros self.
  apply (missing_first_cell_is_not_constant self 2 1 "torque"
           (FloatCol [nan; nan]%float) [SFloat nan]).
  - repeat constructor; intros H; repeat (apply elem_of_cons in H as [H|H];
      [discriminate|]); now apply elem_of_nil in H.
  - repeat constructor.
  - discriminate.
  - reflexivity.
  - reflexivity.
Defined.

(** ** Extrema of columns that hold no numbers *)

Lemma ltb_nan_r (x : float) : (x <? nan)%float = false.
Proof.
  rewrite FloatAxioms.ltb_spec. change (Prim2SF nan) with S754_nan.
  now destruct (Prim2SF x).
Qed.

Lemma ltb_nan_l (x : float) : (nan <? x)%float = false.
Proof. rewrite FloatAxioms.ltb_spec. reflexivity. Qed.

Lemma extremum_nan_first (l : list float) :
  Py.extremum Py.lt (SFloat nan) (map SFloat l) = Ok (SFloat nan)
  /\ Py.extremum Py.gt (SFloat nan) (map SFloat l) = Ok (SFloat nan).
Proof.
  induction l as [|x l [IH1 IH2]]; [split; reflexivity|].
  split; cbn [map Py.extremum Py.lt Py.gt mbind result_bind].
  - now rewrite ltb_nan_r.
  - now rewrite ltb_nan_l.
Qed.

(** X10. When the first cell of a float column is missing (NaN),
    [get_data_extrema] returns [(nan, nan)] whatever the other cells are:
    no value compares below or above NaN, so NaN stays minimum and
    maximum. *)
Theorem extrema_of_missing_first_cell (self : t) (idx hdr : pyval) (rest : list float) :
  _get_raw_data self idx hdr = Ok (Some (FloatCol (nan :: rest))) ->
  get_data_extrema self idx hdr = Ok (SFloat nan, SFloat nan).
Proof.
  intros Hraw. unfold get_data_extrema. rewrite Hraw.
  cbn [mbind result_bind iterate Pandas.values map Py.min Py.max].
  destruct (extremum_nan_first rest) as [-> ->]. reflexivity.
Qed.

Lemma extrema_of_missing_first_cell_witness :
  get_data_extrema
    (Make (PStr "log.csv") (Some default_prefix)
       [("time index", FloatCol [1699972450.123; 1699972451.623; 1699972452.5]%float);
        ("torque", FloatCol [nan; 2.5; 7]%float)] 2 true)
    PNone (PStr "torque")
  = Ok (SFloat nan, SFloat nan).
Proof.
  apply (extrema_of_missing_first_cell _ PNone (PStr "torque") [2.5; 7]%float).
  reflexivity.
Defined.

Lemma extremum_of_strings (before : scalar -> scalar -> result bool) (s : string)
    (l : list string) :
  (forall x y, exists b, before (SStr x) (SStr y) = Ok b) ->
  exists s', Py.extremum before (SStr s) (map SStr l) = Ok (SStr s').
Proof.
  intros Hb. revert s. induction l as [|x l IH]; intros s; simpl; [eauto|].
  destruct (Hb x s) as [b ->]. cbn [mbind result_bind]. destruct b; apply IH.
Qed.

(** X11. [get_data_extrema] returns no window for a column without
    numbers: on a column without rows it raises [ValueError] (the minimum
    of an empty sequence), on a column of text cells it raises [TypeError],
    whether the cells are all the same or not. *)
Theorem extrema_of_columns_without_numbers (self : t) (idx hdr : pyval) (col : column) :
  _get_raw_data self idx hdr = Ok (Some col) ->
  (Pandas.values col = [] ->
   get_data_extrema self idx hdr
   = Raise (Exn ValueError "min() arg is an empty sequence"))
  /\ (forall s l,
         Pandas.values col = map SStr (s :: l) ->
         exists msg, get_data_extrema self idx hdr = Raise (Exn TypeError msg)).
Proof.
  intros Hraw. unfold get_data_extrema. rewrite Hraw.
  cbn [mbind result_bind iterate]. split.
  - intros ->. reflexivity.
  - intros s l ->. cbn [map Py.min Py.max].
    destruct (extremum_of_strings Py.lt s l) as [lo ->]; [intros; cbn; eauto|].
    destruct (extremum_of_strings Py.gt s l) as [hi ->]; [intros; cbn; eauto|].
    cbn [mbind result_bind]. destruct (Py.eq (SStr lo) (SStr hi)); eexists; reflexivity.
Qed.

Lemma extrema_of_columns_without_numbers_witness :
  let self := Make (PStr "log.csv") (Some default_prefix)
                [("time index", FloatCol [1699972450.123; 1699972451.623]%float);
                 ("note", ObjCol [Some "on"; Some "off"])] 2 true in
  exists msg, get_data_extrema self (PInt 1) PNone = Raise (Exn TypeError msg).
Proof.
  intros self.
  apply (proj2 (extrema_of_columns_without_numbers self (PInt 1) PNone
                  (ObjCol [Some "on"; Some "off"]) eq_refl) "on" ["off"]).
  reflexivity.
Defined.

(** ** The header groups as a partition of the columns *)

Lemma setdefault_append_flat {V} (d : list (option string * list V))
    (k : option string) (v : V) :
  flat_map snd (setdefault_append key_eqb d k v) ≡ₚ (flat_map snd d ++ [v])%list.
Proof.
  induction d as [|[k' vs] d IH]; simpl; [reflexivity|].
  destruct (key_eqb k' k); simpl.
  - rewrite <- !app_assoc. apply Permutation_app_head, Permutation_app_comm.
  - rewrite IH. now rewrite app_assoc.
Qed.

Lemma grouped_flat {V} (es : list (option string * V)) :
  flat_map snd (Spec.grouped es) ≡ₚ map snd es.
Proof.
  induction es as [|[k v] es IH] using rev_ind; [reflexivity|].
  rewrite <- setdefault_append_grouped, setdefault_append_flat, IH.
  now rewrite map_app.
Qed.

Lemma grouped_keys {V} (es : list (option string * V)) :
  map fst (Spec.grouped es) = Spec.first_occurrences [] (map fst es).
Proof. unfold Spec.grouped. rewrite map_map. simpl. apply map_id. Qed.

Lemma members_present {V} (k : option string) (es : list (option string * V)) :
  In k (map fst es) -> Spec.members k es <> [].
Proof.
  unfold Spec.members. induction es as [|[k' v] es IH]; simpl; [contradiction|].
  intros [->|H].
  - now rewrite key_eqb_refl.
  - destruct (key_eqb k' k); [discriminate | auto].
Qed.

Lemma entries_from_indices (prefix : string) (idx : nat) (headers : list string) :
  map snd (map snd (Spec.entries_from prefix idx headers)) = seq idx (length headers).
Proof.
  revert idx. induction headers as [|h headers IH]; intros idx; simpl; [reflexivity|].
  destruct (Spec.split_once (Str.replace prefix EmptyString h)). simpl. now rewrite IH.
Qed.

(** X12. When no header, the prefix removed, holds the separator more than
    once, the mapping that [headers_mapping] returns is a partition of the
    columns: the group names are pairwise distinct, no group is empty, and
    the indices of all groups together are the column indices, each one
    once. *)
Theorem headers_mapping_partition (self : t) (prefix : string) :
  _prefix self = Some prefix ->
  Forall (fun h => Spec.single_separator (Str.replace prefix EmptyString h))
         (header_list self) ->
  exists mapping,
    headers_mapping self = Ok mapping
    /\ NoDup (map fst mapping)
    /\ Forall (fun group => snd group <> []) mapping
    /\ map snd (flat_map snd mapping) ≡ₚ index_list self.
Proof.
  intros Hp Hall. eexists. split; [|split; [|split]].
  - apply (headers_mapping_from_grouped self prefix (header_list self) 0 [] Hp Hall).
  - simpl. rewrite grouped_keys. apply first_occurrences_NoDup.
  - simpl. apply Forall_forall. intros [k vs] Hin. simpl.
    apply list_elem_of_In in Hin. unfold Spec.grouped in Hin.
    apply in_map_iff in Hin as (k' & E & Hk'). injection E as -> <-.
    apply members_present. now apply first_occurrences_not_seen in Hk'.
  - simpl. rewrite grouped_flat, entries_from_indices. reflexivity.
Qed.

Lemma headers_mapping_partition_witness :
  let self := Make (PStr "log.csv") (Some default_prefix)
                [("time index", IntCol [1; 2]);
                 ("Truma_n_AmcuDebugData::operationTime", IntCol [3; 4]);
                 ("speed", IntCol [5; 6]);
                 ("Truma_n_AmcuDebugData::state", IntCol [0; 0])] 4 true in
  exists mapping,
    headers_mapping self = Ok mapping
    /\ NoDup (map fst mapping)
    /\ Forall (fun group => snd group <> []) mapping
    /\ map snd (flat_map snd mapping) ≡ₚ index_list self.
Proof.
  intros self. apply (headers_mapping_partition self default_prefix).
  - reflexivity.
  - repeat constructor.
    + now apply single_separator_absent.
    + now apply (single_separator_once _ "AmcuDebugData" "operationTime").
    + now apply single_separator_absent.
    + now apply (single_separator_once _ "AmcuDebugData" "state").
Defined.

(** X13. With the prefix [None], which the constructor's annotation
    allows, [headers_mapping] raises [TypeError] on every table that has a
    column: the test [prefix in header] needs a string. *)
Theorem headers_mapping_without_prefix (self : t) :
  _prefix self = None ->
  header_list self <> [] ->
  headers_mapping self
  = Raise (Exn TypeError "'in <string>' requires string as left operand, not NoneType").
Proof.
  intros Hp Hne. unfold headers_mapping.
  destruct (header_list self) as [|h l]; [contradiction|].
  cbn [headers_mapping_from]. unfold stripped_header. rewrite Hp. reflexivity.
Qed.

Lemma headers_mapping_without_prefix_witness :
  headers_mapping
    (Make (PStr "log.csv") None [("time index", IntCol [1; 2])] 1 true)
  = Raise (Exn TypeError "'in <string>' requires string as left operand, not NoneType").
Proof. apply headers_mapping_without_prefix; [reflexivity | discriminate]. Defined.

(** ** Values and the time series: what makes them fail *)

(** X14. [time_data_list] fails with [ValueError] when no column is headed
    [time index], and with [IndexError] when that column has no rows. *)
Theorem time_data_list_without_times (self : t) :
  (~ In "time index" (header_list self) ->
   time_data_list self = Raise (Exn ValueError "Header 'time index' not found"))
  /\ (forall col,
         Pandas.get (_dataframe self) "time index" = Some col ->
         Pandas.values col = [] ->
         time_data_list self = Raise (Exn IndexError "list index out of range")).
Proof.
  split.
  - intros Hin. unfold time_data_list, get_data, _get_raw_data, _validate_input,
      _validate_index, _validate_header.
    destruct (Str.mem "time index" (header_list self)) eqn:E; [|reflexivity].
    now apply mem_In in E.
  - intros col Hget Hv. unfold time_data_list.
    rewrite (get_data_by_header self _ col Hget), Hv. reflexivity.
Qed.

Lemma time_data_list_without_times_witness :
  time_data_list
    (Make (PStr "log.csv") (Some default_prefix) [("speed", IntCol [3; 4])] 1 true)
  = Raise (Exn ValueError "Header 'time index' not found")
  /\ time_data_list
       (Make (PStr "log.csv") (Some default_prefix) [("time index", ObjCol [])] 1 true)
     = Raise (Exn IndexError "list index out of range").
Proof.
  split.
  - apply (proj1 (time_data_list_without_times _)). simpl. intros [H|[]]. discriminate.
  - apply (proj2 (time_data_list_without_times _) (ObjCol [])); reflexivity.
Defined.

Lemma mapM_float_floats (l : list float) : mapM Py.float (map SFloat l) = Ok l.
Proof. induction l as [|x l IH]; simpl; [reflexivity | now rewrite IH]. Qed.


(** X15. [get_data] returns the cells of a float column as they are, and
    whenever it returns, for any column, it returns one float per row. *)
Theorem get_data_values (self : t) (idx hdr : pyval) (col : column) :
  _get_raw_data self idx hdr = Ok (Some col) ->
  (forall l, col = FloatCol l -> get_data self idx hdr = Ok l)
  /\ (forall out, get_data self idx hdr = Ok out -> length out = Pandas.len col).
Proof.
  intros Hraw. unfold get_data. rewrite Hraw. cbn [mbind result_bind iterate]. split.
  - intros l ->. apply mapM_float_floats.
  - intros out H. now apply mapM_length in H.
Qed.

Lemma get_data_values_witness :
  let self := Make (PStr "log.csv") (Some default_prefix)
                [("time index", FloatCol [1699972450.123; 1699972451.623]%float);
                 ("speed", IntCol [3; 4])] 2 true in
  get_data self (PInt 0) PNone = Ok [1699972450.123; 1699972451.623]%float.
Proof.
  intros self.
  apply (proj1 (get_data_values self (PInt 0) PNone
                  (FloatCol [1699972450.123; 1699972451.623]%float) eq_refl)).
  reflexivity.
Defined.




(** ** Loading *)

(** X17. Whatever [read_csv] raises, [_load_data] raises an exception of
    one of five classes: [FileNotFoundError], [EmptyDataError],
    [ValueError], [TypeError] or plain [Exception]; it returns exactly the
    frame that [read_csv] returns; and the object that the constructor
    returns holds that frame, its number of columns, the path and the
    prefix. *)
Theorem load_data_outcomes (filepath : pyval) (prefix : option string)
    (read_csv : pyval -> result DataFrame) :
  (forall e, _load_data filepath read_csv = Raise e -> In (exn_cls e) Spec.load_classes)
  /\ (forall df, _load_data filepath read_csv = Ok df <-> read_csv filepath = Ok df)
  /\ (forall self,
         __init__ (Some filepath) prefix read_csv = Ok self ->
         read_csv filepath = Ok (_dataframe self)
         /\ _nr_of_data self = Z.of_nat (length (header_list self))
         /\ _filepath self = filepath /\ _prefix self = prefix /\ loaded self = true).
Proof.
  assert (Hok : forall df, _load_data filepath read_csv = Ok df <-> read_csv filepath = Ok df).
  { intros df. unfold _load_data. destruct (read_csv filepath) as [df'|exc].
    - reflexivity.
    - split; [|discriminate]. case_clauses; try discriminate.
      destruct filepath; discriminate. }
  split; [|split; [exact Hok|]].
  - intros e. unfold _load_data. destruct (read_csv filepath) as [df|exc]; [discriminate|].
    unfold Spec.load_classes. case_clauses; try destruct filepath; cbn;
      intros H; injection H as <-; simpl; tauto.
  - intros self H. unfold __init__ in H. apply bind_Ok in H as (df & Hdf & H).
    injection H as <-. simpl. repeat split. now apply Hok.
Qed.

Lemma load_data_outcomes_witness :
  In (exn_cls (Exn Exception "An unexpected error occurred: [Errno 13] Permission denied"))
     Spec.load_classes.
Proof.
  apply (proj1 (load_data_outcomes (PStr "log.csv") (Some default_prefix)
                  (fun _ => raise PermissionError "[Errno 13] Permission denied"))).
  reflexivity.
Defined.

(** ** Headers and indices together *)

Lemma get_header_at (self : t) (i : nat) (h : string) :
  _nr_of_data self = Z.of_nat (length (header_list self)) ->
  nth_error (header_list self) i = Some h ->
  get_header self (Z.of_nat i) = Ok h.
Proof.
  intros Hn Hi. assert (Hlt : (i < length (header_list self))%nat)
    by (apply nth_error_Some; congruence).
  unfold get_header, _validate_index.
  replace ((Z.of_nat i <? 0) || (_nr_of_data self <=? Z.of_nat i))%bool with false
    by (symmetry; apply orb_false_intro; [apply Z.ltb_ge | apply Z.leb_gt]; lia).
  cbn [mbind result_bind]. unfold Py.index. now rewrite Nat2Z.id, Hi.
Qed.

Lemma get_header_each (self : t) (pre suf : list string) :
  _nr_of_data self = Z.of_nat (length (header_list self)) ->
  header_list self = (pre ++ suf)%list ->
  mapM (fun i => get_header self (Z.of_nat i)) (seq (length pre) (length suf)) = Ok suf.
Proof.
  intros Hn. revert pre. induction suf as [|h suf IH]; intros pre Hl; [reflexivity|].
  cbn [length seq mapM]. rewrite (get_header_at self (length pre) h Hn).
  2:{ now rewrite Hl, nth_error_app2, Nat.sub_diag by lia. }
  cbn [mbind result_bind].
  specialize (IH (pre ++ [h])%list). rewrite length_app, Nat.add_1_r in IH.
  rewrite IH by (now rewrite <- app_assoc). reflexivity.
Qed.

(** X18. On a loaded table, asking [get_header] for every index of
    [index_list] gives [header_list]. *)
Theorem get_header_over_index_list (self : t) :
  Spec.constructed self ->
  mapM (fun i => get_header self (Z.of_nat i)) (index_list self) = Ok (header_list self).
Proof.
  intros Hc. apply (get_header_each self [] (header_list self)); [|reflexivity].
  now apply constructed_nr_of_data.
Qed.

Lemma get_header_over_index_list_witness :
  let self := Make (PStr "log.csv") (Some default_prefix)
                [("time index", IntCol [1; 2]); ("speed", IntCol [3; 4])] 2 true in
  mapM (fun i => get_header self (Z.of_nat i)) (index_list self)
  = Ok ["time index"; "speed"].
Proof.
  intros self. apply (get_header_over_index_list self).
  apply (constructed_read (PStr "log.csv") (Some default_prefix)
           [("time index", IntCol [1; 2]); ("speed", IntCol [3; 4])]).
Defined.

(** ** Colour codes *)

(** X19. [get_unique_color_code] raises [IndexError], with the index in the
    message, for every integer index outside [[0, columnCount)], before it
    computes anything; so whenever it returns a colour the index is a
    column index and the column count it divides by is positive. *)
Theorem get_unique_color_code_bounds (self : t) (i : Z) :
  (i < 0 \/ _nr_of_data self <= i ->
   get_unique_color_code self i
   = Raise (Exn IndexError ("Index '" +:+ Str.of_Z i +:+ "' out of range.")))
  /\ (forall s, get_unique_color_code self i = Ok s -> 0 <= i < _nr_of_data self).
Proof.
  unfold get_unique_color_code, _validate_index.
  destruct ((i <? 0) || (_nr_of_data self <=? i))%bool eqn:E.
  - split; [reflexivity | discriminate].
  - apply orb_false_elim in E as [E1 E2]. apply Z.ltb_ge in E1. apply Z.leb_gt in E2.
    split; [lia | intros; lia].
Qed.

Lemma get_unique_color_code_bounds_witness :
  let self := Make (PStr "log.csv") (Some default_prefix)
                [("time index", IntCol [1; 2]); ("speed", IntCol [3; 4])] 2 true in
  get_unique_color_code self 2 = Raise (Exn IndexError "Index '2' out of range.")
  /\ 0 <= 1 < _nr_of_data self.
Proof.
  intros self. split.
  - apply (proj1 (get_unique_color_code_bounds self 2)). right. simpl. lia.
  - apply (proj2 (get_unique_color_code_bounds self 1) "#983df4"). vm_compute. reflexivity.
Defined.

Lemma color_codes_checked :
  forallb (fun n => forallb (Spec.color_code_ok n) (seq 0 n)) (seq 1 256) = true.
Proof. vm_compute. reflexivity. Qed.

(** X20. For every table of up to 256 columns and every column index,
    [get_unique_color_code] returns a well-formed colour code, [#] followed
    by six lower-case hexadecimal digits (checked by evaluating every
    index of every such column count). *)
Theorem get_unique_color_code_well_formed (self : t) (i : Z) :
  _nr_of_data self <= 256 ->
  0 <= i < _nr_of_data self ->
  exists s, get_unique_color_code self i = Ok s /\ Spec.is_color_code s = true.
Proof.
  intros Hn Hi. pose proof color_codes_checked as H.
  rewrite forallb_forall in H.
  specialize (H (Z.to_nat (_nr_of_data self))).
  rewrite forallb_forall in H.
  assert (Hok : Spec.color_code_ok (Z.to_nat (_nr_of_data self)) (Z.to_nat i) = true).
  { apply H; apply in_seq; lia. }
  unfold Spec.color_code_ok in Hok. rewrite !Z2Nat.id in Hok by lia.
  change (get_unique_color_code
            (Make PNone None [] (_nr_of_data self) true) i)
    with (get_unique_color_code self i) in Hok.
  destruct (get_unique_color_code self i) as [s|e]; [eauto | discriminate].
Qed.

Lemma get_unique_color_code_well_formed_witness :
  let self := Make (PStr "log.csv") (Some default_prefix)
                [("time index", IntCol [1; 2]); ("speed", IntCol [3; 4])] 2 true in
  exists s, get_unique_color_code self 1 = Ok s /\ Spec.is_color_code s = true.
Proof.
  intros self. apply (get_unique_color_code_well_formed self 1); simpl; lia.
Defined.

(** The two colours of that table. *)
Example get_unique_color_code_example :
  let self := Make (PStr "log.csv") (Some default_prefix)
                [("time index", IntCol [1; 2]); ("speed", IntCol [3; 4])] 2 true in
  get_unique_color_code self 0 = Ok "#f43d3d"
  /\ get_unique_color_code self 1 = Ok "#983df4".
Proof. split; vm_compute; reflexivity. Qed.

(** ** The window of a constant-zero column *)

Lemma float_zero_cases (f : float) :
  Float.compare_Z f 0 = Some Eq -> f = zero \/ f = neg_zero.
Proof.
  intros H. apply compare_Z_zero in H as [s Hs].
  rewrite <- (SF2Prim_Prim2SF f), Hs. destruct s; auto.
Qed.

Lemma extremum_of_zeros (before : scalar -> scalar -> result bool) (cur : float)
    (l : list float) :
  (forall x y, (x = zero \/ x = neg_zero) -> (y = zero \/ y = neg_zero) ->
               before (SFloat x) (SFloat y) = Ok false) ->
  cur = zero \/ cur = neg_zero ->
  Forall (fun f => f = zero \/ f = neg_zero) l ->
  Py.extremum before (SFloat cur) (map SFloat l) = Ok (SFloat cur).
Proof.
  intros Hb Hcur. induction 1 as [|x l Hx _ IH]; simpl; [reflexivity|].
  now rewrite (Hb x cur Hx Hcur).
Qed.

Lemma lt_zeros (x y : float) :
  x = zero \/ x = neg_zero -> y = zero \/ y = neg_zero ->
  Py.lt (SFloat x) (SFloat y) = Ok false.
Proof. intros [-> | ->] [-> | ->]; reflexivity. Qed.

Lemma gt_zeros (x y : float) :
  x = zero \/ x = neg_zero -> y = zero \/ y = neg_zero ->
  Py.gt (SFloat x) (SFloat y) = Ok false.
Proof. intros [-> | ->] [-> | ->]; reflexivity. Qed.

Lemma all_constant {A} (p : A -> bool) (l : list A) (a : A) :
  (forall x, p x = true -> x = a) -> forallb p l = true -> Forall (eq a) l.
Proof.
  intros Hp. induction l as [|x l IH]; simpl; intros H; constructor;
    apply andb_prop in H as [Hx Hl]; [symmetry|]; auto.
Qed.

Lemma Forall_eq_map {A B} (g : A -> B) (a : A) (l : list A) :
  Forall (eq a) l -> Forall (eq (g a)) (map g l).
Proof. induction 1 as [|x l <- _ IH]; simpl; constructor; auto. Qed.

Lemma forallb_id_map {A} (p : A -> bool) (l : list A) :
  forallb id (map p l) = forallb p l.
Proof. induction l as [|x l IH]; simpl; [reflexivity | now rewrite IH]. Qed.

(** X21. A column with at least one row whose cells all equal zero, the
    columns that [const_zero_data_index_list] lists, gets the window
    [(-1.0, 1.0)] from [get_data_extrema], whether its zeros are integers,
    floats of either sign, or [False]. *)
Theorem extrema_of_zero_column (self : t) (idx hdr : pyval) (col : column) :
  _get_raw_data self idx hdr = Ok (Some col) ->
  Pandas.values col <> [] ->
  Spec.all_zero col = true ->
  get_data_extrema self idx hdr = Ok (SFloat (-1), SFloat 1).
Proof.
  intros Hraw Hne Hz. unfold get_data_extrema. rewrite Hraw.
  cbn [mbind result_bind iterate].
  unfold Spec.all_zero, Pandas.all, Pandas.eq in Hz.
  destruct col as [l|l|l|l]; cbn [Pandas.values] in *;
    rewrite map_map, forallb_id_map in Hz.
  - apply (all_constant _ _ 0) in Hz.
    2:{ intros x Hx. cbn in Hx. now apply Z.eqb_eq in Hx. }
    destruct l as [|z l]; [contradiction|]. apply Forall_cons in Hz as [<- Hz].
    cbn [map Py.min Py.max].
    apply (Forall_eq_map SInt) in Hz.
    rewrite (extremum_constant Py.lt (SInt 0) (map SInt l) (lt_same _) Hz).
    rewrite (extremum_constant Py.gt (SInt 0) (map SInt l) (gt_same _) Hz).
    reflexivity.
  - assert (Hall : Forall (fun f => f = zero \/ f = neg_zero) l).
    { apply Forall_forall. intros f Hf. apply list_elem_of_In in Hf.
      rewrite forallb_forall in Hz. specialize (Hz f Hf). cbn in Hz.
      apply float_zero_cases.
      now destruct (Float.compare_Z f 0) as [[]|]. }
    destruct l as [|f l]; [contradiction|]. apply Forall_cons in Hall as [Hf Hall].
    cbn [map Py.min Py.max].
    rewrite (extremum_of_zeros Py.lt f l lt_zeros Hf Hall).
    rewrite (extremum_of_zeros Py.gt f l gt_zeros Hf Hall).
    destruct Hf as [-> | ->]; reflexivity.
  - apply (all_constant _ _ false) in Hz.
    2:{ intros x Hx. now destruct x. }
    destruct l as [|b l]; [contradiction|]. apply Forall_cons in Hz as [<- Hz].
    cbn [map Py.min Py.max].
    apply (Forall_eq_map SBool) in Hz.
    rewrite (extremum_constant Py.lt (SBool false) (map SBool l) (lt_same _) Hz).
    rewrite (extremum_constant Py.gt (SBool false) (map SBool l) (gt_same _) Hz).
    reflexivity.
  - destruct l as [|o l]; [contradiction|]. now destruct o.
Qed.

Lemma extrema_of_zero_column_witness :
  get_data_extrema
    (Make (PStr "log.csv") (Some default_prefix)
       [("time index", FloatCol [1699972450.123; 1699972451.623]%float);
        ("offset", FloatCol [-0; 0]%float)] 2 true)
    (PInt 1) PNone
  = Ok (SFloat (-1), SFloat 1).
Proof.
  apply (extrema_of_zero_column _ (PInt 1) PNone (FloatCol [-0; 0]%float));
    [reflexivity | discriminate | reflexivity].
Defined.

(** ** The shape of a parsed time *)

Lemma append_assoc (a b c : string) : (a +:+ b) +:+ c = a +:+ b +:+ c.
Proof.
  induction a as [|x a IH]; [reflexivity|].
  change (String x ((a +:+ b) +:+ c) = String x (a +:+ b +:+ c)). now rewrite IH.
Qed.

Lemma append_nil_r (a : string) : a +:+ EmptyString = a.
Proof.
  induction a as [|x a IH]; [reflexivity|].
  change (String x (a +:+ EmptyString) = String x a). now rewrite IH.
Qed.

Lemma rev_onto_rev_onto (a b c : string) :
  Str.rev_onto (Str.rev_onto a b) c = Str.rev_onto b (a +:+ c).
Proof.
  revert b c. induction a as [|x a IH]; intros b c; simpl; [reflexivity|].
  now rewrite IH.
Qed.

Lemma rev_rev_onto (a : string) : Str.rev (Str.rev_onto a EmptyString) = a.
Proof. unfold Str.rev. rewrite rev_onto_rev_onto. simpl. apply append_nil_r. Qed.

Lemma rev_onto_nonempty (a : string) (c : ascii) (acc : string) :
  Str.rev_onto a (String c acc) <> EmptyString.
Proof. revert c acc. induction a as [|x a IH]; intros c acc; simpl; [discriminate | apply IH]. Qed.

Lemma split_ws_go_word (cur a s : string) :
  Spec.no_space a = true ->
  Str.split_ws_go cur (a +:+ s) = Str.split_ws_go (Str.rev_onto a cur) s.
Proof.
  revert cur. induction a as [|x a IH]; intros cur H; simpl in *; [reflexivity|].
  apply andb_prop in H as [Hx Ha]. apply negb_true_iff in Hx. rewrite Hx. now apply IH.
Qed.

Lemma split_ws_go_flush (cur s : string) :
  cur <> EmptyString ->
  Str.split_ws_go cur (String " " s) = Str.rev cur :: Str.split_ws_go EmptyString s.
Proof.
  intros H. cbn [Str.split_ws_go]. change (Str.is_space " ") with true.
  destruct cur; [contradiction | reflexivity].
Qed.

Lemma split_ws_go_last (cur : string) :
  cur <> EmptyString -> Str.split_ws_go cur EmptyString = [Str.rev cur].
Proof. intros H. destruct cur; [contradiction | reflexivity]. Qed.

Lemma rev_onto_word_nonempty (a : string) :
  a <> EmptyString -> Str.rev_onto a EmptyString <> EmptyString.
Proof. intros H. destruct a as [|x a]; [contradiction | apply rev_onto_nonempty]. Qed.

(** Two words with one space between them. *)
Lemma split_ws_two (a b : string) :
  Spec.no_space a = true -> a <> EmptyString ->
  Spec.no_space b = true -> b <> EmptyString ->
  Str.split_ws (a +:+ " " +:+ b) = [a; b].
Proof.
  intros Ha Hane Hb Hbne. unfold Str.split_ws.
  rewrite (split_ws_go_word EmptyString a _ Ha).
  change (" " +:+ b) with (String " " b).
  rewrite split_ws_go_flush by now apply rev_onto_word_nonempty.
  rewrite rev_rev_onto. f_equal.
  rewrite <- (append_nil_r b) at 1. rewrite (split_ws_go_word EmptyString b _ Hb).
  rewrite split_ws_go_last by now apply rev_onto_word_nonempty.
  now rewrite rev_rev_onto.
Qed.

Lemma cut_colon (a r : string) :
  Spec.no_colon a = true -> Str.cut ":" (a +:+ String ":" r) = Some (a, r).
Proof.
  induction a as [|x a IH]; intros H.
  - change (EmptyString +:+ String ":" r) with (String ":" r).
    cbn [Str.cut String.prefix].
    destruct (ascii_dec ":" ":"); [now destruct r | contradiction].
  - simpl in H. apply andb_prop in H as [Hx Ha]. apply negb_true_iff in Hx.
    change (String x a +:+ String ":" r) with (String x (a +:+ String ":" r)).
    cbn [Str.cut String.prefix]. rewrite (IH Ha).
    destruct (ascii_dec ":" x) as [<-|_]; [discriminate | reflexivity].
Qed.

Lemma cut_colon_absent (a : string) :
  Spec.no_colon a = true -> Str.cut ":" a = None.
Proof.
  induction a as [|x a IH]; intros H; [reflexivity|].
  simpl in H. apply andb_prop in H as [Hx Ha]. apply negb_true_iff in Hx.
  cbn [Str.cut String.prefix]. rewrite (IH Ha).
  destruct (ascii_dec ":" x) as [<-|_]; [discriminate | reflexivity].
Qed.

Lemma length_append (a b : string) :
  String.length (a +:+ b) = (String.length a + String.length b)%nat.
Proof.
  induction a as [|x a IH]; [reflexivity|].
  change (S (String.length (a +:+ b)) = S (String.length a + String.length b)).
  now rewrite IH.
Qed.

(** Three parts without a colon, joined by colons, split into the three. *)
Lemma split_colon_three (h m r : string) :
  Spec.no_colon h = true -> Spec.no_colon m = true -> Spec.no_colon r = true ->
  Str.split ":" (h +:+ ":" +:+ m +:+ ":" +:+ r) = [h; m; r].
Proof.
  intros Hh Hm Hr. unfold Str.split.
  assert (Hlen : (2 <= String.length (h +:+ ":" +:+ m +:+ ":" +:+ r))%nat).
  { change (h +:+ ":" +:+ m +:+ ":" +:+ r) with (h +:+ String ":" (m +:+ String ":" r)).
    rewrite length_append. cbn [String.length]. rewrite length_append.
    cbn [String.length]. lia. }
  revert Hlen.
  destruct (String.length (h +:+ ":" +:+ m +:+ ":" +:+ r)) as [|[|fuel]];
    intros Hlen; [lia | lia|].
  cbn [Str.split_fuel].
  change (h +:+ ":" +:+ m +:+ ":" +:+ r) with (h +:+ String ":" (m +:+ String ":" r)).
  rewrite (cut_colon h _ Hh), (cut_colon m _ Hm).
  now rewrite (split_fuel_absent fuel ":" r (cut_colon_absent r Hr)).
Qed.

Lemma no_colon_app (a b : string) :
  Spec.no_colon (a +:+ b) = (Spec.no_colon a && Spec.no_colon b)%bool.
Proof.
  induction a as [|c a IH]; simpl; [reflexivity|].
  now rewrite IH, andb_assoc.
Qed.

Lemma no_colon_string_of_uint (u : Decimal.uint) :
  Spec.no_colon (NilEmpty.string_of_uint u) = true.
Proof. induction u; simpl; auto. Qed.

Lemma no_colon_of_Z (z : Z) : Spec.no_colon (Str.of_Z z) = true.
Proof. destruct z; simpl; auto using no_colon_string_of_uint. Qed.

Lemma no_colon_zfill (n : nat) (s : string) :
  Spec.no_colon s = true -> Spec.no_colon (Str.zfill n s) = true.
Proof.
  intros H. unfold Str.zfill. rewrite no_colon_app, H, andb_true_r.
  induction (n - String.length s)%nat; simpl; auto.
Qed.

(** The text of a date and time: a date, a space, and a clock of three
    parts joined by colons. *)
Lemma to_string_shape (dt : Datetime.datetime) :
  exists date h m s,
    Datetime.to_string dt = date +:+ " " +:+ (h +:+ ":" +:+ m +:+ ":" +:+ s)
    /\ Spec.no_space date = true /\ date <> EmptyString
    /\ Spec.no_space (h +:+ ":" +:+ m +:+ ":" +:+ s) = true
    /\ Spec.no_colon h = true /\ Spec.no_colon m = true /\ Spec.no_colon s = true.
Proof.
  exists (Str.zfill 4 (Str.of_Z (Datetime.year dt)) +:+ "-"
          +:+ Str.zfill 2 (Str.of_Z (Datetime.month dt)) +:+ "-"
          +:+ Str.zfill 2 (Str.of_Z (Datetime.day dt))),
    (Str.zfill 2 (Str.of_Z (Datetime.hour dt))),
    (Str.zfill 2 (Str.of_Z (Datetime.minute dt))),
    (Str.zfill 2 (Str.of_Z (Datetime.second dt))
     +:+ (if Datetime.microsecond dt =? 0 then EmptyString
          else "." +:+ Str.zfill 6 (Str.of_Z (Datetime.microsecond dt)))).
  split; [|split; [|split; [|split; [|split; [|split]]]]].
  - unfold Datetime.to_string. now rewrite !append_assoc.
  - rewrite !no_space_app, !no_space_zfill by apply no_space_of_Z. reflexivity.
  - destruct (Str.zfill 4 (Str.of_Z (Datetime.year dt))); discriminate.
  - rewrite !no_space_app, !no_space_zfill by apply no_space_of_Z.
    destruct (Datetime.microsecond dt =? 0); [reflexivity|].
    rewrite no_space_app, no_space_zfill by apply no_space_of_Z. reflexivity.
  - apply no_colon_zfill, no_colon_of_Z.
  - apply no_colon_zfill, no_colon_of_Z.
  - rewrite no_colon_app, no_colon_zfill by apply no_colon_of_Z.
    destruct (Datetime.microsecond dt =? 0); [reflexivity|].
    rewrite no_colon_app, no_colon_zfill by apply no_colon_of_Z. reflexivity.
Qed.

Lemma epoch_tokens_three (formatted : string) (toks : list string) :
  epoch_tokens formatted = Ok toks -> exists h m s, toks = [h; m; s].
Proof.
  unfold epoch_tokens. intros H.
  apply bind_Ok in H as (millis & _ & H). apply bind_Ok in H as (f & _ & H).
  apply bind_Ok in H as (dt & _ & H).
  destruct (to_string_shape dt) as (date & h & m & s & E & Hd & Hdne & Hc & Hh & Hm & Hs).
  cbv beta in H. rewrite E in H.
  rewrite split_ws_two in H; [| assumption | assumption | assumption |].
  - cbn in H. injection H as <-. exists h, m, s. now apply split_colon_three.
  - destruct h; discriminate.
Qed.

(** Whenever [_parse_time] returns, the epoch conversion has succeeded and
    the result has three elements. *)
Lemma parse_time_three (raw_time : float) (t : list float) :
  _parse_time raw_time = Ok t ->
  exists h m s, t = [h; m; s]
    /\ exists toks, epoch_tokens (Float.format3f raw_time) = Ok toks.
Proof.
  unfold _parse_time. intros H. apply bind_Ok in H as (toks & Htoks & H).
  destruct (epoch_tokens (Float.format3f raw_time)) as [toks'|exc] eqn:E.
  - injection Htoks as ->. destruct (epoch_tokens_three _ _ E) as (a & b & c & ->).
    apply mapM_length in H. destruct t as [|h [|m [|s [|x t]]]]; try discriminate.
    exists h, m, s. eauto.
  - destruct (issubclass (exn_cls exc) ValueError); [|discriminate].
    rewrite fallback_tokens_no_space in Htoks by apply no_space_format3f. discriminate.
Qed.

(** X22. Whenever [_parse_time] returns, it returns exactly three numbers,
    the hour, the minute and the second, and they come from the epoch
    conversion: the handler of [ValueError] never produces a result. *)
Theorem parse_time_returns_a_triple (raw_time : float) (t : list float) :
  _parse_time raw_time = Ok t ->
  (exists h m s, t = [h; m; s])
  /\ (exists toks, epoch_tokens (Float.format3f raw_time) = Ok toks
                   /\ mapM Parse.float toks = Ok t)
  /\ forall exc, epoch_tokens (Float.format3f raw_time) <> Raise exc.
Proof.
  intros H. destruct (parse_time_three _ _ H) as (h & m & s & -> & toks & Htoks).
  split; [eauto|]. split.
  - exists toks. split; [assumption|]. unfold _parse_time in H. now rewrite Htoks in H.
  - intros exc Hexc. rewrite Htoks in Hexc. discriminate.
Qed.

Lemma parse_time_returns_a_triple_witness :
  (exists h m s, [14; 34; 10.123]%float = [h; m; s])
  /\ (exists toks, epoch_tokens (Float.format3f 1699972450.123) = Ok toks
                   /\ mapM Parse.float toks = Ok [14; 34; 10.123]%float)
  /\ forall exc, epoch_tokens (Float.format3f 1699972450.123) <> Raise exc.
Proof.
  apply (parse_time_returns_a_triple 1699972450.123 [14; 34; 10.123]%float).
  vm_compute. reflexivity.
Defined.

Lemma get_data_header_Ok (self : t) (label : string) (data : list float) :
  get_data self PNone (PStr label) = Ok data ->
  exists col, Pandas.get (_dataframe self) label = Some col
              /\ mapM Py.float (Pandas.values col) = Ok data.
Proof.
  unfold get_data, _get_raw_data, _validate_input, _get_data_by_header,
    _validate_index, _validate_header.
  destruct (Str.mem label (header_list self)); cbn; [|discriminate].
  destruct (Pandas.get (_dataframe self) label) as [col|]; cbn; [eauto | discriminate].
Qed.

Lemma calculate_rows_parsed (off : list float) (rest out : list float) :
  mapM (fun row => _calculate_time_in_seconds row off) rest = Ok out ->
  Forall (fun row => exists t, _parse_time row = Ok t) rest.
Proof.
  revert out. induction rest as [|row rest IH]; intros out H; [constructor|].
  cbn [mapM] in H. apply bind_Ok in H as (r & Hr & H).
  apply bind_Ok in H as (out' & Hout & _). constructor; [|now apply (IH out')].
  unfold _calculate_time_in_seconds in Hr. apply bind_Ok in Hr as (p & Hp & _).
  apply bind_Ok in Hp as (t & Ht & _). eauto.
Qed.

Lemma parsed_rows_three (rest : list float) :
  Forall (fun row => exists t, _parse_time row = Ok t) rest ->
  Forall (fun row => exists h m s, _parse_time row = Ok [h; m; s]) rest.
Proof.
  intros H. eapply Forall_impl; [exact H|]. intros row [t Ht].
  destruct (parse_time_three _ _ Ht) as (h & m & s & -> & _). eauto.
Qed.

(** X23. [time_data_list] returns a series exactly when the table has a
    column headed [time index] with at least one row, every cell of which
    converts to a float that [_parse_time] parses; in every other case it
    raises. *)
Theorem time_data_list_returns (self : t) :
  (exists out, time_data_list self = Ok out)
  <-> exists col data,
        Pandas.get (_dataframe self) "time index" = Some col
        /\ mapM Py.float (Pandas.values col) = Ok data
        /\ data <> []
        /\ Forall (fun cell => exists t, _parse_time cell = Ok t) data.
Proof.
  split.
  - intros [out H]. unfold time_data_list in H.
    apply bind_Ok in H as (data & Hdata & H).
    apply bind_Ok in H as (first & Hfirst & H).
    apply bind_Ok in H as (off & Hoff & H).
    apply bind_Ok in H as (rest & Hrest & _).
    destruct (get_data_header_Ok _ _ _ Hdata) as (col & Hget & Hcol).
    exists col, data. split; [assumption|]. split; [assumption|].
    destruct data as [|x data]; [discriminate|].
    injection Hfirst as ->. split; [discriminate|].
    constructor; [eauto|]. now apply (calculate_rows_parsed off data rest).
  - intros (col & data & Hget & Hcol & Hne & Hall).
    destruct data as [|first rest]; [contradiction|].
    apply Forall_cons in Hall as [[t Ht] Hrest].
    destruct (parse_time_three _ _ Ht) as (h0 & m0 & s0 & -> & _).
    destruct (elapsed_rows [h0; m0; s0] h0 m0 s0 rest eq_refl (parsed_rows_three _ Hrest))
      as (out & Hout & _).
    exists (0%float :: out). unfold time_data_list.
    rewrite (get_data_by_header self _ col Hget), Hcol.
    cbn. rewrite Ht. cbn [mbind result_bind]. rewrite Hout. reflexivity.
Qed.
